(** * The folder-consultation back end (index.js)

    A shallow embedding of the three request handlers of [index.js]
    ([GET /api/files], [GET /api/files/:folderId], [POST /api/consult])
    and the properties of its specification.

    The handlers are asynchronous JavaScript functions that talk to two
    remote services (the storage API and the generative model) and to three
    parsing libraries.  They are embedded as computations in a small monad
    that threads the state of the outside world, raises and catches
    JavaScript exceptions, and records every call to a collaborator
    together with what the collaborator answered. *)

From Stdlib Require Import Strings.Ascii Sorting.Sorted.
From stdpp Require Import base option list strings sorting gmap.

(** ** JavaScript values *)

(** The line feed and the double quote of the template literals. *)
Definition nl : string := String "010"%char EmptyString.
Definition dquote : string := String "034"%char EmptyString.

(** [Array.prototype.join] on strings. *)
Fixpoint join (sep : string) (l : list string) : string :=
  match l with
  | [] => EmptyString
  | [x] => x
  | x :: r => x +:+ sep +:+ join sep r
  end.

Module Js.

(** A value of a parsed JSON body.  A number is held as the text that
    [Number.prototype.toString] gives for it: a zero of either sign is
    ["0"] and not-a-number is ["NaN"].  An object is held with its own
    members, in the order of the body. *)
#[warnings="-register-all"]
Inductive value :=
| JNull
| JBool (b : bool)
| JNum (lit : string)
| JStr (s : string)
| JArr (l : list value)
| JObj (members : list (string * value)).

(** A property read gives [None] for [undefined]. *)
Definition prop := option value.

(** [ToBoolean]: what [!x] negates. *)
Definition truthy (v : prop) : bool :=
  match v with
  | None => false
  | Some JNull => false
  | Some (JBool b) => b
  | Some (JNum lit) => negb (bool_decide (lit = "0") || bool_decide (lit = "NaN"))
  | Some (JStr s) => negb (bool_decide (s = EmptyString))
  | Some (JArr _) => true
  | Some (JObj _) => true
  end.

(** [ToString], as a template literal applies it; [None] when it throws a
    [TypeError].  An array gives its elements joined by commas, [null]
    giving an empty element.  An object gives ["[object Object]"] by the
    inherited [toString], unless the body gave it a member [toString] of
    its own: a value of a body is never callable, the inherited [valueOf]
    returns the object itself and a [valueOf] of its own is not callable
    either, so that no primitive is found. *)
Fixpoint toString (v : value) : option string :=
  match v with
  | JNull => Some "null"
  | JBool b => Some (if b then "true" else "false")
  | JNum lit => Some lit
  | JStr s => Some s
  | JArr l =>
      option_map (join ",")
        ((fix elements (l : list value) : option (list string) :=
            match l with
            | [] => Some []
            | x :: r =>
                match (match x with
                       | JNull => Some EmptyString
                       | _ => toString x
                       end) with
                | Some s =>
                    match elements r with
                    | Some ss => Some (s :: ss)
                    | None => None
                    end
                | None => None
                end
            end) l)
  | JObj members =>
      if bool_decide ("toString" ∈ members.*1) then None
      else Some "[object Object]"
  end.

(** A template literal on a value that may be [undefined]. *)
Definition interpolate (v : prop) : option string :=
  match v with
  | None => Some "undefined"
  | Some x => toString x
  end.

(** A thrown value.  The services, the libraries and the runtime throw
    [Error] objects, of which the handlers read the [message] only. *)
Inductive error := Error (message : string).

Definition message (e : error) : string :=
  match e with Error m => m end.

(** The [TypeError] of a property read on [undefined]. *)
Definition TypeError_undefined (property : string) : error :=
  Error ("Cannot read properties of undefined (reading '" +:+ property +:+ "')").

(** The [TypeError] of a [ToString] that finds no primitive. *)
Definition TypeError_primitive : error :=
  Error "Cannot convert object to primitive value".

End Js.

(** ** The data of the collaborators *)

Module Drive.

Record file := { id : string; name : string; mimeType : string }.

(** The argument of [drive.files.list]. *)
Record list_params :=
  { q : string; fields : string; orderBy : option string }.

(** [response.data] of [drive.files.list]. *)
Record list_data := { files : option (list file) }.

End Drive.

Module Pptx.

Record slide_text := { raw : option string }.
Record slide := { text : option slide_text }.
Record json := { slides : option (list slide) }.

End Pptx.

Module Gemini.

Record part := { text : option string }.
Record content := { parts : option (list part) }.
Record candidate := { content_of : option content }.
Record response := { candidates : option (list candidate) }.

End Gemini.

(** ** Effects *)

(** How an awaited call ends. *)
Inductive outcome (A : Type) :=
| Returns (a : A)
| Throws (e : Js.error).
Arguments Returns {A} a.
Arguments Throws {A} e.

(** What a handler does to the outside, in the order it does it. *)
Inductive event :=
| DriveFilesList (p : Drive.list_params) (r : outcome Drive.list_data)
| DriveFilesExport (fileId mimeType : string) (r : outcome string)
| DriveFilesGet (fileId : string) (r : outcome (list Byte.byte))
| GenerateContent (prompt : string) (r : outcome (option Gemini.response))
| ConsoleLog (line : string)
| ConsoleError (label detail : string).

(** The calls of the model service among the events. *)
Definition is_model_call (e : event) : bool :=
  match e with
  | GenerateContent _ _ => true
  | _ => false
  end.

(** The collaborators of the handlers, over a state [W] of the outside
    world: the storage and the model service answer from the current state
    and may change it; the parsing libraries are functions of the bytes.
    [GOOGLE_DRIVE_FOLDER_ID] is the variable of the environment, [None]
    when it is not set. *)
Record Backend (W : Type) := {
  GOOGLE_DRIVE_FOLDER_ID : option string;
  drive_files_list : Drive.list_params → W → outcome Drive.list_data * W;
  drive_files_export : string → string → W → outcome string * W;
  drive_files_get : string → W → outcome (list Byte.byte) * W;
  mammoth_extractRawText : list Byte.byte → outcome string;
  pdf : list Byte.byte → outcome string;
  pptx2json_parse : list Byte.byte → outcome Pptx.json;
  buffer_toString_utf8 : list Byte.byte → string;
  generateContent : string → W → outcome (option Gemini.response) * W;
}.
Arguments GOOGLE_DRIVE_FOLDER_ID {W} _.
Arguments drive_files_list {W} _ _ _.
Arguments drive_files_export {W} _ _ _ _.
Arguments drive_files_get {W} _ _ _.
Arguments mammoth_extractRawText {W} _ _.
Arguments pdf {W} _ _.
Arguments pptx2json_parse {W} _ _.
Arguments buffer_toString_utf8 {W} _ _.
Arguments generateContent {W} _ _ _.

(** A computation: from a state of the world to how it ends, the state it
    leaves and the events it produced. *)
Definition M (W A : Type) : Type := W → outcome A * W * list event.

Module Eff.
Section Eff.
Context {W : Type}.

Definition ret {A} (a : A) : M W A := fun w => (Returns a, w, []).

Definition throw {A} (e : Js.error) : M W A := fun w => (Throws e, w, []).

Definition bind {A B} (m : M W A) (k : A → M W B) : M W B :=
  fun w =>
    match m w with
    | (Returns a, w1, t1) =>
        match k a w1 with
        | (o, w2, t2) => (o, w2, t1 ++ t2)
        end
    | (Throws e, w1, t1) => (Throws e, w1, t1)
    end.

(** [try { m } catch (e) { h e }] *)
Definition try_catch {A} (m : M W A) (h : Js.error → M W A) : M W A :=
  fun w =>
    match m w with
    | (Returns a, w1, t1) => (Returns a, w1, t1)
    | (Throws e, w1, t1) =>
        match h e w1 with
        | (o, w2, t2) => (o, w2, t1 ++ t2)
        end
    end.

(** An awaited call of a service: it is recorded with its answer. *)
Definition call {A} (f : W → outcome A * W) (ev : outcome A → event)
  : M W A :=
  fun w => match f w with (o, w1) => (o, w1, [ev o]) end.

(** A call of a library function, which may throw. *)
Definition lift {A} (o : outcome A) : M W A := fun w => (o, w, []).

Definition emit (ev : event) : M W unit := fun w => (Returns tt, w, [ev]).

End Eff.
End Eff.

Notation "'let*' x ':=' c1 'in' c2" := (Eff.bind c1 (fun x => c2))
  (at level 10, x name, c1 at level 100, c2 at level 200).
Notation "c1 ';;;' c2" := (Eff.bind c1 (fun _ => c2))
  (at level 100, c2 at level 200, right associativity).

(** ** The HTTP surface *)

(** What [res.json] serialises: the array of a listing (nothing when the
    listing holds no array), an [{answer}] object (the member is left out
    when the answer is [undefined]) or an [{error}] object. *)
Inductive body :=
| BodyFiles (files : option (list Drive.file))
| BodyAnswer (answer : option string)
| BodyError (error : string).

Record response := { status : nat; json : body }.

(** [res.json(b)] answers 200; [res.status(n).json(b)] answers [n]. *)
Definition res_json (b : body) : response := {| status := 200; json := b |}.
Definition res_status_json (n : nat) (b : body) : response :=
  {| status := n; json := b |}.

Definition mime_google_doc : string := "application/vnd.google-apps.document".
Definition mime_docx : string :=
  "application/vnd.openxmlformats-officedocument.wordprocessingml.document".
Definition mime_pdf : string := "application/pdf".
Definition mime_pptx : string :=
  "application/vnd.openxmlformats-officedocument.presentationml.presentation".
Definition mime_doc : string := "application/msword".
Definition mime_text : string := "text/plain".

(** Step 1 of the consultation: the filter of the supported types. *)
Definition supportedMimeTypes : list string :=
  [ "mimeType='text/plain'";
    "mimeType='application/vnd.google-apps.document'";
    "mimeType='application/pdf'";
    "mimeType='application/vnd.openxmlformats-officedocument.wordprocessingml.document'";
    "mimeType='application/vnd.openxmlformats-officedocument.presentationml.presentation'";
    "mimeType='application/msword'" ].

(** The query of the two browsing handlers. *)
Definition browse_query (folderId : string) : string :=
  "'" +:+ folderId +:+ "' in parents and trashed = false".

(** The query of the consultation. *)
Definition consult_query (folderId : string) : string :=
  "'" +:+ folderId +:+ "' in parents and ("
      +:+ join " or " supportedMimeTypes +:+ ") and trashed = false".

Definition listing_fields : string := "files(id, name, mimeType)".

(** The argument of [drive.files.list] in the browsing handlers and in the
    consultation; the latter names no order. *)
Definition browse_list_params (folderId : string) : Drive.list_params :=
  {| Drive.q := browse_query folderId;
     Drive.fields := listing_fields;
     Drive.orderBy := Some "folder, name" |}.

Definition consult_list_params (folderId : string) : Drive.list_params :=
  {| Drive.q := consult_query folderId;
     Drive.fields := listing_fields;
     Drive.orderBy := None |}.

(** The two kinds of block of the context. *)
Definition content_block (name fileContent : string) : string :=
  "--- Content from file: " +:+ name +:+ " ---" +:+ nl
      +:+ fileContent +:+ nl +:+ nl.

Definition unreadable_block (name : string) : string :=
  "--- Could not read content from file: " +:+ name +:+ " ---" +:+ nl +:+ nl.

(** Step 3: the prompt, with the line breaks and the indentation of the
    template literal. *)
Definition build_prompt (question context : string) : string :=
  "Based on the following documents, please answer the user's question. If you cannot find the answer, say so."
    +:+ nl +:+ "        User Question: " +:+ dquote +:+ question +:+ dquote
    +:+ nl +:+ "        Documents:"
    +:+ nl +:+ "        " +:+ context.

Definition no_files_answer : string :=
  "I couldn't find any supported files (Docs, PDF, DOCX, PPTX, or text) in that folder to read.".

Section Handlers.
Context {W : Type} (B : Backend W).

Definition console_log (line : string) : M W unit :=
  Eff.emit (ConsoleLog line).

Definition console_error (label detail : string) : M W unit :=
  Eff.emit (ConsoleError label detail).

Definition await_list (p : Drive.list_params) : M W Drive.list_data :=
  Eff.call (drive_files_list B p) (DriveFilesList p).

Definition await_export (fileId mimeType : string) : M W string :=
  Eff.call (drive_files_export B fileId mimeType)
           (DriveFilesExport fileId mimeType).

Definition await_get (fileId : string) : M W (list Byte.byte) :=
  Eff.call (drive_files_get B fileId) (DriveFilesGet fileId).

Definition await_generateContent (prompt : string)
  : M W (option Gemini.response) :=
  Eff.call (generateContent B prompt) (GenerateContent prompt).

(** Endpoint 1: the root folder, whose id comes from the environment. *)
Definition get_files_root : M W response :=
  let folderId := default "undefined" (GOOGLE_DRIVE_FOLDER_ID B) in
  Eff.try_catch
    (let* response :=
       await_list (browse_list_params folderId) in
     Eff.ret (res_json (BodyFiles (Drive.files response))))
    (fun error =>
       console_error "Error fetching root files from Drive:"
                     (Js.message error) ;;;
       Eff.ret (res_status_json 500 (BodyError "Failed to fetch files."))).

(** Endpoint 2: a subfolder, whose id is the route parameter. *)
Definition get_files_folder (folderId : string) : M W response :=
  Eff.try_catch
    (let* response :=
       await_list (browse_list_params folderId) in
     Eff.ret (res_json (BodyFiles (Drive.files response))))
    (fun error =>
       console_error ("Error fetching files for folder " +:+ folderId +:+ ":")
                     (Js.message error) ;;;
       Eff.ret (res_status_json 500 (BodyError "Failed to fetch files."))).

(** [pptxJson.slides.map(slide => slide.text.raw)]: the reads of a
    missing [slides] or of a missing [text] throw. *)
Fixpoint slide_raws (l : list Pptx.slide) : outcome (list (option string)) :=
  match l with
  | [] => Returns []
  | slide :: rest =>
      match Pptx.text slide with
      | None => Throws (Js.TypeError_undefined "raw")
      | Some t =>
          match slide_raws rest with
          | Returns rs => Returns (Pptx.raw t :: rs)
          | Throws e => Throws e
          end
      end
  end.

Definition pptx_text (pptxJson : Pptx.json) : outcome string :=
  match Pptx.slides pptxJson with
  | None => Throws (Js.TypeError_undefined "map")
  | Some l =>
      match slide_raws l with
      | Returns rs => Returns (join nl (map (from_option (fun s => s) EmptyString) rs))
      | Throws e => Throws e
      end
  end.

(** The body of the inner [try]: fetch the file and run the parser of
    its type; the result is [fileContent]. *)
Definition read_content (file : Drive.file) : M W string :=
  if bool_decide (Drive.mimeType file = mime_google_doc) then
    await_export (Drive.id file) "text/plain"
  else
    let* fileBuffer := await_get (Drive.id file) in
    if bool_decide (Drive.mimeType file = mime_docx) then
      Eff.lift (mammoth_extractRawText B fileBuffer)
    else if bool_decide (Drive.mimeType file = mime_pdf) then
      Eff.lift (pdf B fileBuffer)
    else if bool_decide (Drive.mimeType file = mime_pptx) then
      let* pptxJson := Eff.lift (pptx2json_parse B fileBuffer) in
      Eff.lift (pptx_text pptxJson)
    else if bool_decide (Drive.mimeType file = mime_doc) then
      console_log ("Skipping unsupported .doc file: " +:+ Drive.name file) ;;;
      Eff.ret EmptyString
    else if bool_decide (Drive.mimeType file = mime_text) then
      Eff.ret (buffer_toString_utf8 B fileBuffer)
    else
      Eff.ret EmptyString.

(** One turn of the loop of step 2. *)
Definition process_file (context : string) (file : Drive.file) : M W string :=
  console_log ("Processing file: " +:+ Drive.name file
                 +:+ " (Type: " +:+ Drive.mimeType file +:+ ")") ;;;
  Eff.try_catch
    (let* fileContent := read_content file in
     Eff.ret (context +:+ content_block (Drive.name file) fileContent))
    (fun parseError =>
       console_error ("Could not parse file " +:+ Drive.name file +:+ ":")
                     (Js.message parseError) ;;;
       Eff.ret (context +:+ unreadable_block (Drive.name file))).

(** [for (const file of files) { ... }], on the accumulated context. *)
Fixpoint for_of_files (files : list Drive.file) (context : string)
  : M W string :=
  match files with
  | [] => Eff.ret context
  | file :: rest =>
      let* context' := process_file context file in
      for_of_files rest context'
  end.

(** Step 4: the test of the model's answer and the read of
    [candidates[0].content.parts[0].text]. *)
Definition first_content (response : option Gemini.response)
  : option Gemini.content :=
  match response with
  | None => None
  | Some r =>
      match Gemini.candidates r with
      | None => None
      | Some [] => None
      | Some (c :: _) => Gemini.content_of c
      end
  end.

Definition first_part_text (c : Gemini.content) : outcome (option string) :=
  match Gemini.parts c with
  | None => Throws (Js.TypeError_undefined "0")
  | Some [] => Throws (Js.TypeError_undefined "text")
  | Some (p :: _) => Returns (Gemini.text p)
  end.

(** A template literal on a value of the body, which throws when the
    value has no text. *)
Definition template_text (v : Js.prop) : M W string :=
  match Js.interpolate v with
  | Some s => Eff.ret s
  | None => Eff.throw Js.TypeError_primitive
  end.

(** Endpoint 3: the consultation. *)
Definition post_consult (req_body : gmap string Js.value) : M W response :=
  let folderId := req_body !! "folderId" in
  let question := req_body !! "question" in
  if negb (Js.truthy folderId) || negb (Js.truthy question) then
    Eff.ret (res_status_json 400
               (BodyError "folderId and question are required."))
  else
    Eff.try_catch
      (let* folderIdText := template_text folderId in
       let* filesResponse :=
         await_list (consult_list_params folderIdText) in
       match Drive.files filesResponse with
       | None | Some [] =>
           Eff.ret (res_json (BodyAnswer (Some no_files_answer)))
       | Some files =>
           let* context := for_of_files files EmptyString in
           let* questionText := template_text question in
           let prompt := build_prompt questionText context in
           let* response := await_generateContent prompt in
           match first_content response with
           | Some content =>
               let* answer := Eff.lift (first_part_text content) in
               Eff.ret (res_json (BodyAnswer answer))
           | None =>
               Eff.throw (Js.Error "Gemini did not return a valid response.")
           end
       end)
      (fun error =>
         console_error "Error with Gemini consultation:" (Js.message error) ;;;
         Eff.ret (res_status_json 500 (BodyError "Failed to consult Gemini."))).

End Handlers.

(** ** Reading the result of a run *)

Definition result_of {W A} (r : outcome A * W * list event) : outcome A := r.1.1.
Definition world_of {W A} (r : outcome A * W * list event) : W := r.1.2.
Definition trace_of {W A} (r : outcome A * W * list event) : list event := r.2.

(** ** The context as a list of blocks *)

Inductive block :=
| Content (name fileContent : string)
| Unreadable (name : string).

Definition render_block (b : block) : string :=
  match b with
  | Content n t => content_block n t
  | Unreadable n => unreadable_block n
  end.

Fixpoint render (bs : list block) : string :=
  match bs with
  | [] => EmptyString
  | b :: r => render_block b +:+ render r
  end.

(** The block that a file gets from the way its read ended. *)
Definition block_of (file : Drive.file) (o : outcome string) : block :=
  match o with
  | Returns t => Content (Drive.name file) t
  | Throws _ => Unreadable (Drive.name file)
  end.

Section Aggregation.
Context {W : Type} (B : Backend W).

(** How the read of each file ends when the files are read one after
    the other from the state [w]. *)
Fixpoint outcomes (files : list Drive.file) (w : W) : list (outcome string) :=
  match files with
  | [] => []
  | file :: rest =>
      let r := read_content B file w in
      result_of r :: outcomes rest (world_of r)
  end.

Definition context_blocks (files : list Drive.file) (w : W) : list block :=
  zip_with block_of files (outcomes files w).

(** The state and the events that the loop leaves. *)
Definition world_after (files : list Drive.file) (w : W) : W :=
  world_of (for_of_files B files EmptyString w).

Definition loop_trace (files : list Drive.file) (w : W) : list event :=
  trace_of (for_of_files B files EmptyString w).

(** The events of one turn: the line that announces the file, the
    events of its read and, when the read threw, the line of the
    [catch]. *)
Definition process_trace (file : Drive.file) (w : W) : list event :=
  let r := read_content B file w in
  ConsoleLog ("Processing file: " +:+ Drive.name file
                +:+ " (Type: " +:+ Drive.mimeType file +:+ ")")
    :: trace_of r
    ++ match result_of r with
       | Returns _ => []
       | Throws parseError =>
           [ConsoleError ("Could not parse file " +:+ Drive.name file +:+ ":")
                         (Js.message parseError)]
       end.

End Aggregation.

(** The listings among the events; the events of the loop are fetches
    and lines of the console. *)
Definition is_list_call (e : event) : bool :=
  match e with
  | DriveFilesList _ _ => true
  | _ => false
  end.

Definition fetch_or_log (e : event) : Prop :=
  is_list_call e = false ∧ is_model_call e = false.

(** ** Counting blocks, reading answers *)

(** The blocks of a context that start with a given header. *)
Fixpoint count_headed (header : string) (blocks : list string) : nat :=
  match blocks with
  | [] => 0
  | b :: r => (if String.prefix header b then 1 else 0) + count_headed header r
  end.


(** The model's answer holds no candidate to read: the response itself
    or its list of candidates is missing, the list is empty, or the first
    candidate has no content. *)
Definition no_usable_candidate (r : option Gemini.response) : Prop :=
  r = None
  ∨ ∃ response,
      r = Some response
      ∧ (Gemini.candidates response = None
         ∨ Gemini.candidates response = Some []
         ∨ ∃ c cs, Gemini.candidates response = Some (c :: cs)
                   ∧ Gemini.content_of c = None).

(** The first candidate has a content whose [parts] is missing or empty. *)
Definition content_without_parts (r : Gemini.response) : Prop :=
  ∃ c cs content,
    Gemini.candidates r = Some (c :: cs)
    ∧ Gemini.content_of c = Some content
    ∧ (Gemini.parts content = None ∨ Gemini.parts content = Some []).

(** ** The paths of the consultation *)

Definition bad_request : response :=
  res_status_json 400 (BodyError "folderId and question are required.").

Definition consult_failed : response :=
  res_status_json 500 (BodyError "Failed to consult Gemini.").

Definition consult_error_log (e : Js.error) : event :=
  ConsoleError "Error with Gemini consultation:" (Js.message e).

Section Paths.
Context {W : Type} (B : Backend W).
Implicit Types (req_body : gmap string Js.value) (w : W).

Definition validated req_body : bool :=
  Js.truthy (req_body !! "folderId") && Js.truthy (req_body !! "question").

(** The prompt of a question over the listed [files], read from [w1]. *)
Definition consult_prompt (question : string) (files : list Drive.file) w1
  : string :=
  build_prompt question (render (context_blocks B files w1)).

(** Every way a consultation can run: what it answers, the state it
    leaves and the events it produces, in order.  [folderId] and
    [question] are the texts of the two fields of the body. *)
Inductive consult_path req_body w : outcome response * W * list event → Prop :=
| path_bad_request :
    validated req_body = false →
    consult_path req_body w (Returns bad_request, w, [])
| path_no_folder_text :
    validated req_body = true →
    Js.interpolate (req_body !! "folderId") = None →
    consult_path req_body w
      (Returns consult_failed, w, [consult_error_log Js.TypeError_primitive])
| path_listing_failed folderId e w1 :
    validated req_body = true →
    Js.interpolate (req_body !! "folderId") = Some folderId →
    drive_files_list B (consult_list_params folderId) w = (Throws e, w1) →
    consult_path req_body w
      (Returns consult_failed, w1,
       [DriveFilesList (consult_list_params folderId) (Throws e);
        consult_error_log e])
| path_no_files folderId d w1 :
    validated req_body = true →
    Js.interpolate (req_body !! "folderId") = Some folderId →
    drive_files_list B (consult_list_params folderId) w = (Returns d, w1) →
    Drive.files d = None ∨ Drive.files d = Some [] →
    consult_path req_body w
      (Returns (res_json (BodyAnswer (Some no_files_answer))), w1,
       [DriveFilesList (consult_list_params folderId) (Returns d)])
| path_no_question_text folderId d w1 files :
    validated req_body = true →
    Js.interpolate (req_body !! "folderId") = Some folderId →
    drive_files_list B (consult_list_params folderId) w = (Returns d, w1) →
    Drive.files d = Some files → files ≠ [] →
    Js.interpolate (req_body !! "question") = None →
    consult_path req_body w
      (Returns consult_failed, world_after B files w1,
       DriveFilesList (consult_list_params folderId) (Returns d)
         :: loop_trace B files w1
         ++ [consult_error_log Js.TypeError_primitive])
| path_model_threw folderId d w1 files question e w3 :
    validated req_body = true →
    Js.interpolate (req_body !! "folderId") = Some folderId →
    drive_files_list B (consult_list_params folderId) w = (Returns d, w1) →
    Drive.files d = Some files → files ≠ [] →
    Js.interpolate (req_body !! "question") = Some question →
    generateContent B (consult_prompt question files w1)
                    (world_after B files w1) = (Throws e, w3) →
    consult_path req_body w
      (Returns consult_failed, w3,
       DriveFilesList (consult_list_params folderId) (Returns d)
         :: loop_trace B files w1
         ++ [GenerateContent (consult_prompt question files w1) (Throws e);
             consult_error_log e])
| path_no_candidate folderId d w1 files question r w3 :
    validated req_body = true →
    Js.interpolate (req_body !! "folderId") = Some folderId →
    drive_files_list B (consult_list_params folderId) w = (Returns d, w1) →
    Drive.files d = Some files → files ≠ [] →
    Js.interpolate (req_body !! "question") = Some question →
    generateContent B (consult_prompt question files w1)
                    (world_after B files w1) = (Returns r, w3) →
    first_content r = None →
    consult_path req_body w
      (Returns consult_failed, w3,
       DriveFilesList (consult_list_params folderId) (Returns d)
         :: loop_trace B files w1
         ++ [GenerateContent (consult_prompt question files w1) (Returns r);
             consult_error_log
               (Js.Error "Gemini did not return a valid response.")])
| path_no_part folderId d w1 files question r w3 c e :
    validated req_body = true →
    Js.interpolate (req_body !! "folderId") = Some folderId →
    drive_files_list B (consult_list_params folderId) w = (Returns d, w1) →
    Drive.files d = Some files → files ≠ [] →
    Js.interpolate (req_body !! "question") = Some question →
    generateContent B (consult_prompt question files w1)
                    (world_after B files w1) = (Returns r, w3) →
    first_content r = Some c →
    first_part_text c = Throws e →
    consult_path req_body w
      (Returns consult_failed, w3,
       DriveFilesList (consult_list_params folderId) (Returns d)
         :: loop_trace B files w1
         ++ [GenerateContent (consult_prompt question files w1) (Returns r);
             consult_error_log e])
| path_answered folderId d w1 files question r w3 c answer :
    validated req_body = true →
    Js.interpolate (req_body !! "folderId") = Some folderId →
    drive_files_list B (consult_list_params folderId) w = (Returns d, w1) →
    Drive.files d = Some files → files ≠ [] →
    Js.interpolate (req_body !! "question") = Some question →
    generateContent B (consult_prompt question files w1)
                    (world_after B files w1) = (Returns r, w3) →
    first_content r = Some c →
    first_part_text c = Returns answer →
    consult_path req_body w
      (Returns (res_json (BodyAnswer answer)), w3,
       DriveFilesList (consult_list_params folderId) (Returns d)
         :: loop_trace B files w1
         ++ [GenerateContent (consult_prompt question files w1) (Returns r)]).

End Paths.

(** ** The order and the query of the listings *)

(** The type by which the storage service marks a folder; the sort key
    [folder] of [orderBy] puts the items of this type first. *)
Definition mime_folder : string := "application/vnd.google-apps.folder".

Definition is_folder (f : Drive.file) : bool :=
  bool_decide (Drive.mimeType f = mime_folder).

(** Folders before files, then by name, for an order [alphabetical] of the
    names. *)
Definition folder_then_name (alphabetical : relation string)
    (f g : Drive.file) : Prop :=
  match is_folder f, is_folder g with
  | true, false => True
  | false, true => False
  | _, _ => alphabetical (Drive.name f) (Drive.name g)
  end.

(** The quoting rule of the storage service's query language: a value
    starts after a quote and runs to the first quote that no backslash
    escapes.  [read_literal s] reads [s] after the opening quote and gives
    the value and what follows the closing quote. *)
Fixpoint read_literal (s : string) : option (string * string) :=
  match s with
  | EmptyString => None
  | String c rest =>
      if bool_decide (c = "039"%char) then Some (EmptyString, rest)
      else if bool_decide (c = "092"%char) then
        match rest with
        | EmptyString => None
        | String c' rest' =>
            match read_literal rest' with
            | Some (v, k) => Some (String c' v, k)
            | None => None
            end
        end
      else
        match read_literal rest with
        | Some (v, k) => Some (String c v, k)
        | None => None
        end
  end.

(** The folder whose children a query asks for: the value of a leading
    ['...' in parents]. *)
Definition named_parent (q : string) : option string :=
  match q with
  | String c s =>
      if bool_decide (c = "039"%char) then
        match read_literal s with
        | Some (v, k) => if String.prefix " in parents" k then Some v else None
        | None => None
        end
      else None
  | EmptyString => None
  end.

Definition plain_char (c : ascii) : Prop := c ≠ "039"%char ∧ c ≠ "092"%char.

(** In the state [w] the storage keeps the promise of the sort keys
    [folder, name]. *)
Definition honours_orderBy {W : Type} (B : Backend W)
    (alphabetical : relation string) (w : W) : Prop :=
  ∀ p d w1 fs,
    Drive.orderBy p = Some "folder, name" →
    drive_files_list B p w = (Returns d, w1) →
    Drive.files d = Some fs →
    StronglySorted (folder_then_name alphabetical) fs.

Definition fetch_failed : response :=
  res_status_json 500 (BodyError "Failed to fetch files.").

(** ** A storage and a model in memory *)

Module Fake.

(** The children of the one folder, in the order in which the storage
    holds them; the ids whose fetch fails; what the model answers; and the
    number of calls that the services have served. *)
Record world := {
  stored : list Drive.file;
  unreadable : list string;
  reply : outcome (option Gemini.response);
  calls : nat;
}.

Definition served (w : world) : world :=
  {| stored := stored w; unreadable := unreadable w; reply := reply w;
     calls := S (calls w) |}.

#[export] Instance folder_then_name_dec :
  RelDecision (folder_then_name String.le).
Proof.
  intros f g. unfold folder_then_name.
  destruct (is_folder f), (is_folder g); apply _.
Defined.

(** The listing sorts when, and only when, it is asked to. *)
Definition list_files (p : Drive.list_params) (w : world)
  : outcome Drive.list_data * world :=
  (Returns {| Drive.files := Some
      (if bool_decide (Drive.orderBy p = Some "folder, name")
       then merge_sort (folder_then_name String.le) (stored w)
       else stored w) |},
   served w).

Definition export_file (fileId mimeType : string) (w : world)
  : outcome string * world :=
  (if bool_decide (fileId ∈ unreadable w)
   then Throws (Js.Error "File not found.")
   else Returns ("text of " +:+ fileId),
   served w).

Definition get_file (fileId : string) (w : world)
  : outcome (list Byte.byte) * world :=
  (if bool_decide (fileId ∈ unreadable w)
   then Throws (Js.Error "File not found.")
   else Returns (String.list_byte_of_string fileId),
   served w).

Definition slide (s : string) : Pptx.slide :=
  {| Pptx.text := Some {| Pptx.raw := Some s |} |}.

Definition backend : Backend world := {|
  GOOGLE_DRIVE_FOLDER_ID := Some "root-folder";
  drive_files_list := list_files;
  drive_files_export := export_file;
  drive_files_get := get_file;
  mammoth_extractRawText := fun _ => Returns "text of a docx";
  pdf := fun _ => Returns "text of a pdf";
  pptx2json_parse := fun _ =>
    Returns {| Pptx.slides := Some [slide "first slide"; slide "second slide"] |};
  buffer_toString_utf8 := String.string_of_list_byte;
  generateContent := fun _ w => (reply w, served w);
|}.

Definition folder (files : list Drive.file) (broken : list string)
    (r : outcome (option Gemini.response)) : world :=
  {| stored := files; unreadable := broken; reply := r; calls := 0 |}.

(** Answers of the model. *)
Definition says (answer : string) : option Gemini.response :=
  Some {| Gemini.candidates := Some
    [ {| Gemini.content_of := Some
           {| Gemini.parts := Some [ {| Gemini.text := Some answer |} ] |} |} ] |}.

Definition zero_candidates : Gemini.response :=
  {| Gemini.candidates := Some [] |}.

Definition no_parts : Gemini.response :=
  {| Gemini.candidates := Some
       [ {| Gemini.content_of := Some {| Gemini.parts := None |} |} ] |}.

(** Files and requests. *)
Definition notes_txt : Drive.file :=
  {| Drive.id := "id-notes"; Drive.name := "notes.txt";
     Drive.mimeType := "text/plain" |}.
Definition agenda_txt : Drive.file :=
  {| Drive.id := "id-agenda"; Drive.name := "agenda.txt";
     Drive.mimeType := "text/plain" |}.
Definition scan_pdf : Drive.file :=
  {| Drive.id := "id-scan"; Drive.name := "scan.pdf";
     Drive.mimeType := "application/pdf" |}.
Definition old_doc : Drive.file :=
  {| Drive.id := "id-old"; Drive.name := "old.doc";
     Drive.mimeType := "application/msword" |}.
Definition archive_folder : Drive.file :=
  {| Drive.id := "id-archive"; Drive.name := "zz-archive";
     Drive.mimeType := "application/vnd.google-apps.folder" |}.

Definition request (folderId question : string) : gmap string Js.value :=
  {[ "folderId" := Js.JStr folderId; "question" := Js.JStr question ]}.

Definition due_request : gmap string Js.value := request "f1" "What is due?".

Definition no_folder_request : gmap string Js.value :=
  {[ "question" := Js.JStr "What is due?" ]}.

Definition empty_folder_request : gmap string Js.value :=
  request EmptyString "What is due?".

Definition root_request : gmap string Js.value :=
  request "root-folder" "What is due?".

Definition three_files : list Drive.file := [notes_txt; scan_pdf; old_doc].

(** Three files, the second of which cannot be fetched. *)
Definition one_broken : world :=
  folder three_files ["id-scan"] (Returns (says "Friday")).

Definition empty_folder : world := folder [] [] (Returns (says "Friday")).

Definition mute_model : world :=
  folder [notes_txt] [] (Returns (Some zero_candidates)).

Definition partless_model : world :=
  folder [notes_txt] [] (Returns (Some no_parts)).

(** Two text files that the storage holds in the order of their upload. *)
Definition unsorted_folder : world :=
  folder [notes_txt; agenda_txt] [] (Returns (says "Friday")).

Definition mixed_folder : world :=
  folder [notes_txt; archive_folder; agenda_txt] [] (Returns (says "Friday")).

(** One legacy document, which cannot be fetched. *)
Definition broken_doc : world :=
  folder [old_doc] ["id-old"] (Returns (says "Friday")).

End Fake.

(** ** Service calls, fetches, falsy values *)

(** The calls that reach the storage or the model service. *)
Definition is_service_call (e : event) : bool :=
  match e with
  | DriveFilesList _ _ | DriveFilesExport _ _ _ | DriveFilesGet _ _
  | GenerateContent _ _ => true
  | ConsoleLog _ | ConsoleError _ _ => false
  end.

Fixpoint count_events (p : event → bool) (t : list event) : nat :=
  match t with
  | [] => 0
  | ev :: r => (if p ev then 1 else 0) + count_events p r
  end.

(** The fetch that an event records: the id of the file and, for an
    export, the type that is asked for. *)
Definition fetch_request (e : event) : option (string * option string) :=
  match e with
  | DriveFilesExport fileId mimeType _ => Some (fileId, Some mimeType)
  | DriveFilesGet fileId _ => Some (fileId, None)
  | _ => None
  end.

(** The fetch that the type of a file calls for: an export as plain text
    for a native document, a download for every other type. *)
Definition expected_fetch (file : Drive.file) : string * option string :=
  if bool_decide (Drive.mimeType file = mime_google_doc)
  then (Drive.id file, Some "text/plain")
  else (Drive.id file, None).

(** The values that [!x] takes for missing: [undefined], [null], [false],
    a zero, not-a-number and the empty string. *)
Definition falsy (v : Js.prop) : Prop :=
  v = None ∨ v = Some Js.JNull ∨ v = Some (Js.JBool false)
  ∨ v = Some (Js.JNum "0") ∨ v = Some (Js.JNum "NaN")
  ∨ v = Some (Js.JStr EmptyString).

Definition threw {A : Type} (o : outcome A) : bool :=
  match o with
  | Returns _ => false
  | Throws _ => true
  end.

Fixpoint count_thrown (outs : list (outcome string)) : nat :=
  match outs with
  | [] => 0
  | o :: r => (if threw o then 1 else 0) + count_thrown r
  end.

(** What [join] makes of a [raw] that a slide does not have. *)
Definition raw_or_empty (slide : Pptx.slide) : string :=
  match Pptx.text slide with
  | Some t => from_option (fun s => s) EmptyString (Pptx.raw t)
  | None => EmptyString
  end.

Definition has_text (slide : Pptx.slide) : Prop :=
  is_Some (Pptx.text slide).

(** The suffixes of a string that start after its first character. *)
Fixpoint later_suffixes (s : string) : list string :=
  match s with
  | EmptyString => []
  | String _ rest => rest :: later_suffixes rest
  end.

(** The two browsing handlers. *)
Definition browses {W : Type} (B : Backend W) (handler : M W response)
    (folderId : string) : Prop :=
  handler = get_files_root B ∨ handler = get_files_folder B folderId.

(** ** A storage that refuses the listing *)

Module Outage.

Definition refused : Js.error := Js.Error "The service is currently unavailable.".

Definition backend : Backend Fake.world := {|
  GOOGLE_DRIVE_FOLDER_ID := Some "root-folder";
  drive_files_list := fun _ w => (Throws refused, Fake.served w);
  drive_files_export := Fake.export_file;
  drive_files_get := Fake.get_file;
  mammoth_extractRawText := fun _ => Returns "text of a docx";
  pdf := fun _ => Returns "text of a pdf";
  pptx2json_parse := fun _ => Returns {| Pptx.slides := None |};
  buffer_toString_utf8 := String.string_of_list_byte;
  generateContent := fun _ w => (Fake.reply w, Fake.served w);
|}.

(** A folder of the storage in memory and a model that rejects. *)
Definition model_down : Fake.world :=
  Fake.folder [Fake.notes_txt; Fake.scan_pdf] []
              (Throws (Js.Error "Quota exceeded.")).

(** An answer with two candidates, the first of which has two parts. *)
Definition two_candidates : Gemini.response :=
  {| Gemini.candidates := Some
       [ {| Gemini.content_of := Some
              {| Gemini.parts := Some [ {| Gemini.text := Some "Friday" |};
                                        {| Gemini.text := Some "or Monday" |} ] |} |};
         {| Gemini.content_of := Some
              {| Gemini.parts := Some [ {| Gemini.text := Some "Never" |} ] |} |} ] |}.

Definition talkative : Fake.world :=
  Fake.folder [Fake.notes_txt] [] (Returns (Some two_candidates)).

(** A body whose question is an object with a member [toString]. *)
Definition opaque_question : gmap string Js.value :=
  {[ "folderId" := Js.JStr "f1";
     "question" := Js.JObj [("toString", Js.JNum "1")] ]}.

(** A native document and a folder that holds it with a PDF. *)
Definition minutes_gdoc : Drive.file :=
  {| Drive.id := "id-minutes"; Drive.name := "minutes";
     Drive.mimeType := "application/vnd.google-apps.document" |}.

Definition office : Fake.world :=
  Fake.folder [minutes_gdoc; Fake.scan_pdf] [] (Returns (Fake.says "Friday")).

End Outage.

(** * Properties *)

(** Two records of the same call hold the same answer. *)
Ltac same_call :=
  repeat match goal with
    | H1 : ?x = _, H2 : ?x = _ |- _ => rewrite H1 in H2; simplify_eq
    end.

(** ** Strings *)

Lemma append_nil_r (s : string) : s +:+ EmptyString = s.
Proof.
  induction s as [|c s IH]; [done|].
  change (String c (s +:+ EmptyString) = String c s). by rewrite IH.
Qed.

Lemma append_assoc (s1 s2 s3 : string) : (s1 +:+ s2) +:+ s3 = s1 +:+ s2 +:+ s3.
Proof.
  induction s1 as [|c s1 IH]; [done|].
  change (String c ((s1 +:+ s2) +:+ s3) = String c (s1 +:+ s2 +:+ s3)).
  by rewrite IH.
Qed.

Lemma prefix_append (s1 s2 : string) : String.prefix s1 (s1 +:+ s2) = true.
Proof.
  induction s1 as [|c s1 IH]; [by destruct s2|].
  change (String c s1 +:+ s2) with (String c (s1 +:+ s2)). cbn.
  by destruct (ascii_dec c c).
Qed.

(** The context is the concatenation of the texts of its blocks. *)
Lemma render_join (bs : list block) :
  render bs = join EmptyString (render_block <$> bs).
Proof.
  induction bs as [|b [|b' bs] IH]; [done|apply append_nil_r|].
  cbn [render] in *. by rewrite IH.
Qed.

(** The headers tell a placeholder block from a content block. *)
Lemma headers_of_blocks (b : block) :
  String.prefix "--- Could not read content from file: " (render_block b)
  = match b with Unreadable _ => true | Content _ _ => false end
  ∧ String.prefix "--- Content from file: " (render_block b)
    = match b with Unreadable _ => false | Content _ _ => true end.
Proof.
  destruct b as [name fileContent|name]; cbn [render_block].
  - split; [reflexivity|apply prefix_append].
  - split; [apply prefix_append|reflexivity].
Qed.

Lemma count_headed_thrown (files : list Drive.file) (outs : list (outcome string)) :
  length outs = length files →
  count_headed "--- Could not read content from file: "
               (render_block <$> zip_with block_of files outs)
  = count_thrown outs
  ∧ count_headed "--- Content from file: "
                 (render_block <$> zip_with block_of files outs)
      + count_thrown outs
    = length files.
Proof.
  revert outs. induction files as [|f files IH]; intros [|o outs] Hlen;
    simplify_eq/=; [done|].
  destruct (IH outs) as [IH1 IH2]; [done|].
  destruct (headers_of_blocks (block_of f o)) as [-> ->].
  rewrite IH1. destruct o; cbn; lia.
Qed.



(** ** The loop *)

Section Loop.
Context {W : Type} (B : Backend W).

(** One turn never throws: it appends the block of the file and leaves
    the state in which the read left it. *)
Lemma process_file_run (context : string) (file : Drive.file) (w : W) :
  let r := read_content B file w in
  process_file B context file w
  = (Returns (context +:+ render_block (block_of file (result_of r))),
     world_of r, process_trace B file w).
Proof.
  unfold process_trace, process_file, console_log, console_error, Eff.bind,
    Eff.try_catch, Eff.emit, Eff.ret; cbn.
  destruct (read_content B file w) as [[[x|e] w1] t1]; cbn; [|done].
  by rewrite app_nil_r.
Qed.

Lemma for_of_files_run (files : list Drive.file) (context : string) (w : W) :
  for_of_files B files context w
  = (Returns (context +:+ render (context_blocks B files w)),
     world_after B files w, loop_trace B files w).
Proof.
  unfold world_after, loop_trace, context_blocks.
  revert context w. induction files as [|file rest IH]; intros context w.
  - cbn. by rewrite append_nil_r.
  - cbn [for_of_files outcomes zip_with render]. unfold Eff.bind.
    rewrite !process_file_run.
    rewrite (IH (context +:+ _)), (IH (EmptyString +:+ _)).
    cbn. by rewrite append_assoc.
Qed.

Lemma loop_trace_cons (file : Drive.file) (rest : list Drive.file) (w : W) :
  loop_trace B (file :: rest) w
  = process_trace B file w
      ++ loop_trace B rest (world_of (read_content B file w)).
Proof.
  unfold loop_trace at 1. cbn [for_of_files]. unfold Eff.bind.
  by rewrite process_file_run, for_of_files_run.
Qed.

(** The loop asks for no listing and calls no model. *)
Lemma read_content_trace (file : Drive.file) (w : W) :
  Forall fetch_or_log (trace_of (read_content B file w)).
Proof.
  unfold read_content, await_export, await_get, console_log, Eff.call,
    Eff.bind, Eff.lift, Eff.emit, Eff.ret.
  repeat case_bool_decide;
    repeat match goal with
      | |- context [drive_files_export B ?a ?b ?w] =>
          destruct (drive_files_export B a b w) as [[?|?] ?]
      | |- context [drive_files_get B ?a ?w] =>
          destruct (drive_files_get B a w) as [[?|?] ?]
      | |- context [pptx2json_parse B ?x] =>
          destruct (pptx2json_parse B x)
      | |- context [mammoth_extractRawText B ?x] =>
          destruct (mammoth_extractRawText B x)
      | |- context [pdf B ?x] => destruct (pdf B x)
      | |- context [pptx_text ?x] => destruct (pptx_text x)
      end;
    cbn; repeat constructor.
Qed.

Lemma process_trace_quiet (file : Drive.file) (w : W) :
  Forall fetch_or_log (process_trace B file w).
Proof.
  unfold process_trace. constructor; [done|].
  apply Forall_app; split; [apply read_content_trace|].
  destruct (result_of _); repeat constructor.
Qed.

Lemma loop_trace_quiet (files : list Drive.file) (w : W) :
  Forall fetch_or_log (loop_trace B files w).
Proof.
  revert w. induction files as [|file rest IH]; intros w.
  - constructor.
  - rewrite loop_trace_cons. apply Forall_app; split;
      [apply process_trace_quiet | apply IH].
Qed.

(** The blocks follow the listing: one per file, under its name. *)
Lemma outcomes_length (files : list Drive.file) (w : W) :
  length (outcomes B files w) = length files.
Proof.
  revert w. induction files as [|file rest IH]; intros w; [done|].
  cbn. by rewrite IH.
Qed.

Lemma context_blocks_length (files : list Drive.file) (w : W) :
  length (context_blocks B files w) = length files.
Proof.
  unfold context_blocks. rewrite length_zip_with, outcomes_length. lia.
Qed.

Lemma context_blocks_lookup (files : list Drive.file) (w : W) (i : nat) :
  context_blocks B files w !! i
  = (file ← files !! i; o ← outcomes B files w !! i; Some (block_of file o)).
Proof. apply lookup_zip_with. Qed.

Lemma block_texts_lookup (files : list Drive.file) (w : W) (j : nat)
    (file : Drive.file) (o : outcome string) :
  files !! j = Some file →
  outcomes B files w !! j = Some o →
  (render_block <$> context_blocks B files w) !! j
  = Some (render_block (block_of file o)).
Proof.
  intros Hf Ho. by rewrite list_lookup_fmap, context_blocks_lookup, Hf, Ho.
Qed.

Lemma block_texts_length (files : list Drive.file) (w : W) :
  length (render_block <$> context_blocks B files w) = length files.
Proof. by rewrite length_fmap, context_blocks_length. Qed.

(** The loop returns the concatenation of the texts of the blocks. *)
Lemma for_of_files_texts (files : list Drive.file) (context : string) (w : W) :
  result_of (for_of_files B files context w)
  = Returns (context
               +:+ join EmptyString (render_block <$> context_blocks B files w)).
Proof. by rewrite for_of_files_run, render_join. Qed.

End Loop.

(** ** The paths of the consultation *)

Section Paths.
Context {W : Type} (B : Backend W).
Implicit Types (req_body : gmap string Js.value) (w : W).

(** The handler follows one of these paths, whatever the request and the
    state of the world. *)
Lemma post_consult_path req_body w :
  consult_path B req_body w (post_consult B req_body w).
Proof.
  unfold post_consult.
  destruct (validated req_body) eqn:Hv; unfold validated in Hv.
  2:{ replace (negb _ || negb _) with true
        by (by rewrite <-negb_andb, Hv).
      by apply path_bad_request. }
  replace (negb _ || negb _) with false by (by rewrite <-negb_andb, Hv).
  unfold Eff.try_catch, Eff.bind at 1, template_text.
  destruct (Js.interpolate (req_body !! "folderId")) as [folderId|] eqn:Hf.
  2:{ cbn. by apply path_no_folder_text. }
  unfold Eff.ret at 1, Eff.bind at 1, await_list, Eff.call.
  destruct (drive_files_list B (consult_list_params folderId) w)
    as [[d|e] w1] eqn:Hlist.
  2:{ cbn. by eapply path_listing_failed. }
  destruct (Drive.files d) as [[|file rest]|] eqn:Hfiles.
  1,3: cbn; eapply path_no_files; eauto.
  unfold Eff.bind at 1. rewrite for_of_files_run.
  change (EmptyString +:+ ?s) with s.
  unfold Eff.bind at 1.
  destruct (Js.interpolate (req_body !! "question")) as [question|] eqn:Hq.
  2:{ cbn. rewrite app_nil_r. by eapply path_no_question_text. }
  unfold Eff.ret at 1.
  fold (consult_prompt B question (file :: rest) w1).
  unfold Eff.bind at 1, await_generateContent, Eff.call.
  destruct (generateContent B _ _) as [[r|e] w3] eqn:Hgen.
  2:{ cbn. rewrite <-app_assoc. by eapply path_model_threw. }
  destruct (first_content r) as [c|] eqn:Hc.
  2:{ cbn. rewrite <-app_assoc. by eapply path_no_candidate. }
  unfold Eff.bind, Eff.lift.
  destruct (first_part_text c) as [answer|e] eqn:Hp.
  - cbn. by eapply path_answered.
  - cbn. rewrite <-app_assoc. by eapply path_no_part.
Qed.

End Paths.

(** ** What the events of a consultation tell *)

Section Events.
Context {W : Type} (B : Backend W).
Implicit Types (req_body : gmap string Js.value) (w : W).

Lemma loop_trace_no_list files w p o :
  DriveFilesList p o ∉ loop_trace B files w.
Proof.
  intros Hin. pose proof (loop_trace_quiet B files w) as Hq.
  rewrite Forall_forall in Hq. by destruct (Hq _ Hin).
Qed.

Lemma loop_trace_no_model files w prompt o :
  GenerateContent prompt o ∉ loop_trace B files w.
Proof.
  intros Hin. pose proof (loop_trace_quiet B files w) as Hq.
  rewrite Forall_forall in Hq. by destruct (Hq _ Hin).
Qed.

(** A listing in the events is the listing that the request asked for,
    with the answer that the storage gave from the first state. *)
Lemma consult_listing_event req_body w p o :
  DriveFilesList p o ∈ trace_of (post_consult B req_body w) →
  validated req_body = true
  ∧ ∃ folderId w1,
      Js.interpolate (req_body !! "folderId") = Some folderId
      ∧ p = consult_list_params folderId
      ∧ drive_files_list B (consult_list_params folderId) w = (o, w1).
Proof.
  intros Hin.
  destruct (post_consult_path B req_body w);
    unfold trace_of in Hin; cbn [snd] in Hin;
    rewrite ?elem_of_cons, ?elem_of_app, ?elem_of_cons, ?elem_of_nil in Hin;
    destruct_or?; simplify_eq;
    try (by exfalso; eapply loop_trace_no_list);
    (split; [done|]); eexists _, _; split_and!;
    first [eassumption | reflexivity].
Qed.

(** A call of the model in the events was made after a listing that
    held files, with the prompt built from these files, in the state
    that the loop left. *)
Lemma consult_model_event req_body w prompt o :
  GenerateContent prompt o ∈ trace_of (post_consult B req_body w) →
  ∃ folderId d w1 files question w3,
    validated req_body = true
    ∧ Js.interpolate (req_body !! "folderId") = Some folderId
    ∧ drive_files_list B (consult_list_params folderId) w = (Returns d, w1)
    ∧ Drive.files d = Some files ∧ files ≠ []
    ∧ Js.interpolate (req_body !! "question") = Some question
    ∧ prompt = consult_prompt B question files w1
    ∧ generateContent B prompt (world_after B files w1) = (o, w3).
Proof.
  intros Hin.
  destruct (post_consult_path B req_body w);
    unfold trace_of in Hin; cbn [snd] in Hin;
    rewrite ?elem_of_cons, ?elem_of_app, ?elem_of_cons, ?elem_of_nil in Hin;
    destruct_or?; simplify_eq;
    try (by exfalso; eapply loop_trace_no_model);
    eexists _, _, _, _, _, _; split_and!;
    first [eassumption | reflexivity].
Qed.

End Events.

(** ** The consultation: validation, empty folders, the model's answer *)

Section Consult.
Context {W : Type} (B : Backend W).
Implicit Types (req_body : gmap string Js.value) (w : W).

Lemma validated_None req_body :
  req_body !! "folderId" = None ∨ req_body !! "question" = None →
  validated req_body = false.
Proof.
  unfold validated. intros [-> | ->]; [done|]. apply andb_false_r.
Qed.

Lemma validated_empty req_body :
  req_body !! "folderId" = Some (Js.JStr EmptyString)
  ∨ req_body !! "question" = Some (Js.JStr EmptyString) →
  validated req_body = false.
Proof.
  unfold validated. intros [-> | ->]; [done|]. apply andb_false_r.
Qed.

Lemma post_consult_rejected req_body w :
  validated req_body = false →
  post_consult B req_body w = (Returns bad_request, w, []).
Proof.
  intros Hv. unfold post_consult. unfold validated in Hv.
  by rewrite <-negb_andb, Hv.
Qed.

(** The handler always answers: no path ends in an exception. *)
Lemma post_consult_responds req_body w :
  ∃ resp, result_of (post_consult B req_body w) = Returns resp.
Proof. destruct (post_consult_path B req_body w); eauto. Qed.

(** C5: a consult request whose body lacks [folderId] or lacks [question]
    is answered 400 with an error body; no event at all is produced, so no
    storage or model call is made, and the world is left as it was. *)
Theorem consult_missing_field_400 req_body w :
  req_body !! "folderId" = None ∨ req_body !! "question" = None →
  post_consult B req_body w
  = (Returns {| status := 400;
                json := BodyError "folderId and question are required." |},
     w, []).
Proof. intros H. by apply post_consult_rejected, validated_None. Qed.

(** C9: a [folderId] or a [question] that is present but is the empty
    string is treated as missing: the request is answered 400 with no
    event, exactly as the same request without that field. *)
Theorem consult_empty_string_400 req_body w (field : string) :
  field = "folderId" ∨ field = "question" →
  req_body !! field = Some (Js.JStr EmptyString) →
  post_consult B req_body w = post_consult B (delete field req_body) w
  ∧ post_consult B req_body w
    = (Returns {| status := 400;
                  json := BodyError "folderId and question are required." |},
       w, []).
Proof.
  intros Hf He.
  rewrite (post_consult_rejected req_body), (post_consult_rejected (delete _ _));
    [done| |].
  - apply validated_None.
    destruct Hf as [-> | ->]; [left|right]; apply lookup_delete_eq.
  - apply validated_empty. destruct Hf as [-> | ->]; auto.
Qed.

(** C2: when the listing of a consult request comes back with no files
    (an empty array or none at all), the answer is the fixed message, with
    status 200, and the listing is the only event: the model is never
    called. *)
Theorem consult_no_files_fixed_answer req_body w p d :
  DriveFilesList p (Returns d) ∈ trace_of (post_consult B req_body w) →
  Drive.files d = None ∨ Drive.files d = Some [] →
  result_of (post_consult B req_body w)
  = Returns {| status := 200;
               json := BodyAnswer (Some
                 "I couldn't find any supported files (Docs, PDF, DOCX, PPTX, or text) in that folder to read.") |}
  ∧ trace_of (post_consult B req_body w) = [DriveFilesList p (Returns d)]
  ∧ Forall (fun e => is_model_call e = false)
           (trace_of (post_consult B req_body w)).
Proof.
  intros Hin Hd.
  destruct (consult_listing_event B _ _ _ _ Hin)
    as (Hv & fid & w1 & Hfid & -> & Hlist).
  clear Hin.
  destruct (post_consult_path B req_body w); same_call;
    try (destruct Hd; congruence).
  split_and!; [done..|]. by repeat constructor.
Qed.

(** C3: when the model answers a consult request with nothing to read
    (no response object, no list of candidates, an empty list, or a first
    candidate that has no content), the request is answered 500 with the
    generic error, whatever files were listed and however their reads
    ended. *)
Theorem consult_no_candidate_500 req_body w prompt r :
  GenerateContent prompt (Returns r)
    ∈ trace_of (post_consult B req_body w) →
  no_usable_candidate r →
  result_of (post_consult B req_body w)
  = Returns {| status := 500; json := BodyError "Failed to consult Gemini." |}.
Proof.
  intros Hin Hr.
  assert (first_content r = None) as Hnone.
  { destruct Hr as [-> | (response & -> & Hr)]; [done|]. cbn.
    destruct Hr as [-> | [-> | (c & cs & -> & Hc)]]; done. }
  destruct (consult_model_event B _ _ _ _ Hin)
    as (fid & d & w1 & files & qn & w3
        & Hv & Hfid & Hlist & Hfiles & Hne & Hqn & -> & Hgen).
  clear Hin.
  destruct (post_consult_path B req_body w); same_call;
    try done; destruct_or?; congruence.
Qed.

(** C10: when the model's candidate list is not empty and the first
    candidate has a content with a missing or an empty [parts], the read of
    [parts[0].text] throws inside the [try]; the handler still answers,
    with 500 and the generic error body. *)
Theorem consult_no_parts_500 req_body w prompt r :
  GenerateContent prompt (Returns (Some r))
    ∈ trace_of (post_consult B req_body w) →
  content_without_parts r →
  result_of (post_consult B req_body w)
  = Returns {| status := 500; json := BodyError "Failed to consult Gemini." |}.
Proof.
  intros Hin (c & cs & content & Hr & Hc & Hparts).
  assert (first_content (Some r) = Some content) as Hsome.
  { cbn. by rewrite Hr. }
  assert (∃ e, first_part_text content = Throws e) as [e He].
  { unfold first_part_text. destruct Hparts as [-> | ->]; eauto. }
  destruct (consult_model_event B _ _ _ _ Hin)
    as (fid & d & w1 & files & qn & w3
        & Hv & Hfid & Hlist & Hfiles & Hne & Hqn & -> & Hgen).
  clear Hin.
  destruct (post_consult_path B req_body w); same_call;
    try done; destruct_or?; congruence.
Qed.

End Consult.

(** ** One unreadable file among the listed ones *)

Section OneFailure.
Context {W : Type} (B : Backend W).
Implicit Types (req_body : gmap string Js.value) (w : W).


(** C6, as the code has it: a file of type [application/msword] whose
    download returns gets a content block with an empty body, whatever the
    bytes; no parser is run on them. *)
Theorem legacy_doc_empty_block
    (context : string) (file : Drive.file) w (bytes : list Byte.byte) w1 :
  Drive.mimeType file = "application/msword" →
  drive_files_get B (Drive.id file) w = (Returns bytes, w1) →
  process_file B context file w
  = (Returns (context +:+ "--- Content from file: " +:+ Drive.name file
                +:+ " ---" +:+ nl +:+ EmptyString +:+ nl +:+ nl),
     w1,
     [ConsoleLog ("Processing file: " +:+ Drive.name file
                    +:+ " (Type: application/msword)");
      DriveFilesGet (Drive.id file) (Returns bytes);
      ConsoleLog ("Skipping unsupported .doc file: " +:+ Drive.name file)]).
Proof.
  intros Hmime Hget. rewrite process_file_run.
  assert (read_content B file w
          = (Returns EmptyString, w1,
             [DriveFilesGet (Drive.id file) (Returns bytes);
              ConsoleLog ("Skipping unsupported .doc file: "
                            +:+ Drive.name file)])) as Hread.
  { unfold read_content. rewrite Hmime.
    repeat case_bool_decide;
      try match goal with H : _ = _ |- _ => by cbv in H end.
    unfold await_get, console_log, Eff.call, Eff.bind, Eff.emit, Eff.ret.
    by rewrite Hget. }
  unfold process_trace. by rewrite Hread, Hmime.
Qed.

(** C4, as the code has it: the listing of a consultation names no order,
    and the context that goes to the model is the concatenation of one
    block per listed file, in the order in which the storage returned the
    files: for each file its header and the text that its read returned,
    or its placeholder when the read threw. *)
Theorem consult_context_in_listing_order
    req_body w (folderId : string) d w1 (files : list Drive.file) prompt o :
  Js.interpolate (req_body !! "folderId") = Some folderId →
  drive_files_list B (consult_list_params folderId) w = (Returns d, w1) →
  Drive.files d = Some files →
  GenerateContent prompt o ∈ trace_of (post_consult B req_body w) →
  (∀ p' o', DriveFilesList p' o' ∈ trace_of (post_consult B req_body w) →
            Drive.orderBy p' = None)
  ∧ ∃ (question : string) (blocks : list string),
      Js.interpolate (req_body !! "question") = Some question
      ∧ length blocks = length files
      ∧ (∀ j f o', files !! j = Some f →
                   outcomes B files w1 !! j = Some o' →
           blocks !! j
           = Some (match o' with
                   | Returns t =>
                       "--- Content from file: " +:+ Drive.name f
                         +:+ " ---" +:+ nl +:+ t +:+ nl +:+ nl
                   | Throws _ =>
                       "--- Could not read content from file: "
                         +:+ Drive.name f +:+ " ---" +:+ nl +:+ nl
                   end))
      ∧ prompt
        = "Based on the following documents, please answer the user's question. If you cannot find the answer, say so."
            +:+ nl +:+ "        User Question: " +:+ dquote +:+ question
            +:+ dquote +:+ nl +:+ "        Documents:" +:+ nl +:+ "        "
            +:+ join EmptyString blocks.
Proof.
  intros Hfolder Hlist Hfiles Hm.
  split.
  { intros p' o' Hl.
    by destruct (consult_listing_event B _ _ _ _ Hl)
      as (_ & fid & w1' & _ & -> & _). }
  assert (∃ question,
            Js.interpolate (req_body !! "question") = Some question
            ∧ prompt = consult_prompt B question files w1) as (qn & Hqn & ->).
  { destruct (consult_model_event B _ _ _ _ Hm)
      as (fid & d' & w1' & files' & qn & w3
          & _ & Hfid & Hlist' & Hfiles' & Hne & Hqn & -> & _).
    same_call. eauto. }
  exists qn, (render_block <$> context_blocks B files w1).
  split_and!; [done|apply block_texts_length| |].
  - intros j f o' Hf Ho. rewrite (block_texts_lookup B files w1 j f o') by done.
    by destruct o'.
  - unfold consult_prompt. by rewrite render_join.
Qed.

End OneFailure.

(** ** The order and the query of the listings *)

Section Listing.
Context {W : Type} (B : Backend W) (alphabetical : relation string).
Implicit Types (req_body : gmap string Js.value) (w : W).

Lemma get_files_folder_run (folderId : string) w :
  get_files_folder B folderId w
  = match drive_files_list B (browse_list_params folderId) w with
    | (Returns d, w1) =>
        (Returns (res_json (BodyFiles (Drive.files d))), w1,
         [DriveFilesList (browse_list_params folderId) (Returns d)])
    | (Throws e, w1) =>
        (Returns fetch_failed, w1,
         [DriveFilesList (browse_list_params folderId) (Throws e);
          ConsoleError ("Error fetching files for folder " +:+ folderId +:+ ":")
                       (Js.message e)])
    end.
Proof.
  unfold get_files_folder, Eff.try_catch, Eff.bind, await_list, Eff.call.
  by destruct (drive_files_list B _ w) as [[d|e] w1].
Qed.

Lemma get_files_root_run w :
  let folderId := default "undefined" (GOOGLE_DRIVE_FOLDER_ID B) in
  get_files_root B w
  = match drive_files_list B (browse_list_params folderId) w with
    | (Returns d, w1) =>
        (Returns (res_json (BodyFiles (Drive.files d))), w1,
         [DriveFilesList (browse_list_params folderId) (Returns d)])
    | (Throws e, w1) =>
        (Returns fetch_failed, w1,
         [DriveFilesList (browse_list_params folderId) (Throws e);
          ConsoleError "Error fetching root files from Drive:" (Js.message e)])
    end.
Proof.
  unfold get_files_root, Eff.try_catch, Eff.bind, await_list, Eff.call.
  by destruct (drive_files_list B _ w) as [[d|e] w1].
Qed.

(** C7: each browsing handler sends one listing, for the children of its
    folder with the sort keys [folder, name], and when the listing returns
    it answers 200 with the array as the storage returned it; so, in a
    state in which the storage honours these keys, the children that the
    handler returns are ordered folders first, then by name.  The folder
    of the root handler is the one of the environment. *)
Theorem listings_folders_then_names w (folderId : string) :
  honours_orderBy B alphabetical w →
  (let root := default "undefined" (GOOGLE_DRIVE_FOLDER_ID B) in
   let p := {| Drive.q := "'" +:+ root +:+ "' in parents and trashed = false";
               Drive.fields := "files(id, name, mimeType)";
               Drive.orderBy := Some "folder, name" |} in
   ∃ o w1 t,
     drive_files_list B p w = (o, w1)
     ∧ trace_of (get_files_root B w) = DriveFilesList p o :: t
     ∧ Forall (fun ev => is_list_call ev = false) t
     ∧ ∀ d, o = Returns d →
         result_of (get_files_root B w)
         = Returns {| status := 200; json := BodyFiles (Drive.files d) |}
         ∧ ∀ fs, Drive.files d = Some fs →
                 StronglySorted (folder_then_name alphabetical) fs)
  ∧ (let p := {| Drive.q := "'" +:+ folderId
                              +:+ "' in parents and trashed = false";
                 Drive.fields := "files(id, name, mimeType)";
                 Drive.orderBy := Some "folder, name" |} in
     ∃ o w1 t,
       drive_files_list B p w = (o, w1)
       ∧ trace_of (get_files_folder B folderId w) = DriveFilesList p o :: t
       ∧ Forall (fun ev => is_list_call ev = false) t
       ∧ ∀ d, o = Returns d →
           result_of (get_files_folder B folderId w)
           = Returns {| status := 200; json := BodyFiles (Drive.files d) |}
           ∧ ∀ fs, Drive.files d = Some fs →
                   StronglySorted (folder_then_name alphabetical) fs).
Proof.
  intros Hsorted. rewrite get_files_root_run, get_files_folder_run. cbn zeta.
  split.
  - fold (browse_list_params (default "undefined" (GOOGLE_DRIVE_FOLDER_ID B))).
    destruct (drive_files_list B _ w) as [[d|e] w1] eqn:Hlist;
      eexists _, _, _; (split_and!; [done|done|by repeat constructor|]);
      intros d' ?; simplify_eq. split; [done|].
    intros fs Hfs. by eapply Hsorted; [|exact Hlist|].
  - fold (browse_list_params folderId).
    destruct (drive_files_list B _ w) as [[d|e] w1] eqn:Hlist;
      eexists _, _, _; (split_and!; [done|done|by repeat constructor|]);
      intros d' ?; simplify_eq. split; [done|].
    intros fs Hfs. by eapply Hsorted; [|exact Hlist|].
Qed.

(** The quoting rule reads back a folder id that holds neither a quote
    nor a backslash. *)
Lemma read_literal_plain (folderId k : string) :
  Forall plain_char (String.list_ascii_of_string folderId) →
  read_literal (folderId +:+ String "039"%char k) = Some (folderId, k).
Proof.
  induction folderId as [|c s IH]; intros Hplain.
  - done.
  - apply Forall_cons in Hplain as [[Hq Hb] Hplain].
    change (String c s +:+ ?x) with (String c (s +:+ x)).
    cbn [read_literal]. rewrite !bool_decide_eq_false_2 by done.
    by rewrite IH.
Qed.

Lemma named_parent_plain (folderId : string) :
  Forall plain_char (String.list_ascii_of_string folderId) →
  named_parent (browse_query folderId) = Some folderId
  ∧ named_parent (consult_query folderId) = Some folderId.
Proof.
  intros Hplain. unfold browse_query, consult_query, named_parent.
  change ("'" +:+ ?x) with (String "039"%char x). lazy beta iota.
  rewrite bool_decide_eq_true_2 by done.
  change ("' in parents and trashed = false")
    with (String "039"%char " in parents and trashed = false").
  change ("' in parents and (" +:+ ?x)
    with (String "039"%char (" in parents and (" +:+ x)).
  by rewrite !read_literal_plain.
Qed.

(** C8: the three handlers put the folder id between quotes, as it is,
    at the head of the query that they send: the browsing handlers before
    [in parents and trashed = false], the consultation before the filter
    of the supported types.  For a folder id that holds a quote, the query
    does not ask for the children of that folder id. *)
Theorem queries_interpolate_folder_id (folderId : string) req_body w :
  GOOGLE_DRIVE_FOLDER_ID B = Some folderId →
  req_body !! "folderId" = Some (Js.JStr folderId) →
  validated req_body = true →
  (∃ o t, trace_of (get_files_root B w)
          = DriveFilesList
              {| Drive.q := "'" +:+ folderId
                              +:+ "' in parents and trashed = false";
                 Drive.fields := "files(id, name, mimeType)";
                 Drive.orderBy := Some "folder, name" |} o :: t)
  ∧ (∃ o t, trace_of (get_files_folder B folderId w)
            = DriveFilesList
                {| Drive.q := "'" +:+ folderId
                                +:+ "' in parents and trashed = false";
                   Drive.fields := "files(id, name, mimeType)";
                   Drive.orderBy := Some "folder, name" |} o :: t)
  ∧ (∃ o t, trace_of (post_consult B req_body w)
            = DriveFilesList
                {| Drive.q := "'" +:+ folderId
                     +:+ "' in parents and (mimeType='text/plain' or mimeType='application/vnd.google-apps.document' or mimeType='application/pdf' or mimeType='application/vnd.openxmlformats-officedocument.wordprocessingml.document' or mimeType='application/vnd.openxmlformats-officedocument.presentationml.presentation' or mimeType='application/msword') and trashed = false";
                   Drive.fields := "files(id, name, mimeType)";
                   Drive.orderBy := None |} o :: t)
  ∧ ∃ quoted : string,
      "039"%char ∈ String.list_ascii_of_string quoted
      ∧ named_parent (browse_query quoted) ≠ Some quoted
      ∧ named_parent (consult_query quoted) ≠ Some quoted.
Proof.
  intros Henv Hbody Hv. split_and!.
  - rewrite get_files_root_run, Henv. cbn.
    destruct (drive_files_list B _ w) as [[d|e] w1]; by eexists _, _.
  - rewrite get_files_folder_run.
    destruct (drive_files_list B _ w) as [[d|e] w1]; by eexists _, _.
  - assert (Js.interpolate (req_body !! "folderId") = Some folderId) as Hf
      by (by rewrite Hbody).
    destruct (post_consult_path B req_body w); same_call;
      by eexists _, _.
  - exists "x' in parents or 'y". split_and!.
    + by vm_compute; repeat constructor.
    + by vm_compute.
    + by vm_compute.
Qed.

End Listing.

(** ** The claims on the storage in memory *)

Module FakeRuns.
Import Fake.

#[export] Instance folder_then_name_total : Total (folder_then_name String.le).
Proof.
  intros f g. unfold folder_then_name.
  destruct (is_folder f), (is_folder g); auto; apply String.le_total.
Qed.

#[export] Instance folder_then_name_trans :
  Transitive (folder_then_name String.le).
Proof.
  intros f g h. unfold folder_then_name.
  destruct (is_folder f), (is_folder g), (is_folder h); try done;
    apply transitivity.
Qed.

(** The storage in memory honours the sort keys in every state. *)
Lemma fake_honours_orderBy (w : world) : honours_orderBy backend String.le w.
Proof.
  intros p d w1 fs Hp Hlist Hfs. cbn in Hlist. unfold list_files in Hlist.
  rewrite bool_decide_eq_true_2 in Hlist by done. simplify_eq/=.
  apply StronglySorted_merge_sort; apply _.
Qed.

(** A body with a question and no folder id. *)
Lemma consult_missing_field_400_witness :
  (no_folder_request !! "folderId" = None
   ∨ no_folder_request !! "question" = None)
  ∧ post_consult backend no_folder_request one_broken
    = (Returns {| status := 400;
                  json := BodyError "folderId and question are required." |},
       one_broken, []).
Proof.
  assert (no_folder_request !! "folderId" = None
          ∨ no_folder_request !! "question" = None) as H
    by (left; reflexivity).
  split; [exact H|].
  exact (consult_missing_field_400 backend no_folder_request one_broken H).
Defined.

(** A body whose folder id is the empty string. *)
Lemma consult_empty_string_400_witness :
  empty_folder_request !! "folderId" = Some (Js.JStr EmptyString)
  ∧ post_consult backend empty_folder_request one_broken
    = post_consult backend (delete "folderId" empty_folder_request) one_broken
  ∧ post_consult backend empty_folder_request one_broken
    = (Returns {| status := 400;
                  json := BodyError "folderId and question are required." |},
       one_broken, []).
Proof.
  assert (empty_folder_request !! "folderId" = Some (Js.JStr EmptyString))
    as H by reflexivity.
  split; [exact H|].
  exact (consult_empty_string_400 backend empty_folder_request one_broken
           "folderId" (or_introl eq_refl) H).
Defined.

(** A consultation of an empty folder. *)
Lemma consult_no_files_fixed_answer_witness :
  DriveFilesList (consult_list_params "f1")
                 (Returns {| Drive.files := Some [] |})
    ∈ trace_of (post_consult backend due_request empty_folder)
  ∧ result_of (post_consult backend due_request empty_folder)
    = Returns {| status := 200;
                 json := BodyAnswer (Some
                   "I couldn't find any supported files (Docs, PDF, DOCX, PPTX, or text) in that folder to read.") |}
  ∧ trace_of (post_consult backend due_request empty_folder)
    = [DriveFilesList (consult_list_params "f1")
                      (Returns {| Drive.files := Some [] |})]
  ∧ Forall (fun e => is_model_call e = false)
           (trace_of (post_consult backend due_request empty_folder)).
Proof.
  assert (DriveFilesList (consult_list_params "f1")
                         (Returns {| Drive.files := Some [] |})
            ∈ trace_of (post_consult backend due_request empty_folder)) as H.
  { vm_compute. apply list_elem_of_here. }
  split; [exact H|].
  exact (consult_no_files_fixed_answer backend due_request empty_folder
           _ _ H (or_intror eq_refl)).
Defined.

(** One readable file, and a model that returns zero candidates. *)
Lemma consult_no_candidate_500_witness :
  GenerateContent
    (build_prompt "What is due?" (content_block "notes.txt" "id-notes"))
    (Returns (Some zero_candidates))
    ∈ trace_of (post_consult backend due_request mute_model)
  ∧ no_usable_candidate (Some zero_candidates)
  ∧ result_of (post_consult backend due_request mute_model)
    = Returns {| status := 500; json := BodyError "Failed to consult Gemini." |}.
Proof.
  assert (GenerateContent
            (build_prompt "What is due?" (content_block "notes.txt" "id-notes"))
            (Returns (Some zero_candidates))
            ∈ trace_of (post_consult backend due_request mute_model)) as H.
  { vm_compute. do 3 apply list_elem_of_further. apply list_elem_of_here. }
  assert (no_usable_candidate (Some zero_candidates)) as Hr.
  { right. eexists. split; [reflexivity|]. right; left. reflexivity. }
  split_and!; [exact H|exact Hr|].
  exact (consult_no_candidate_500 backend due_request mute_model _ _ H Hr).
Defined.

(** One readable file, and a model whose first candidate has a content
    without [parts]. *)
Lemma consult_no_parts_500_witness :
  GenerateContent
    (build_prompt "What is due?" (content_block "notes.txt" "id-notes"))
    (Returns (Some no_parts))
    ∈ trace_of (post_consult backend due_request partless_model)
  ∧ content_without_parts no_parts
  ∧ result_of (post_consult backend due_request partless_model)
    = Returns {| status := 500; json := BodyError "Failed to consult Gemini." |}.
Proof.
  assert (GenerateContent
            (build_prompt "What is due?" (content_block "notes.txt" "id-notes"))
            (Returns (Some no_parts))
            ∈ trace_of (post_consult backend due_request partless_model)) as H.
  { vm_compute. do 3 apply list_elem_of_further. apply list_elem_of_here. }
  assert (content_without_parts no_parts) as Hr.
  { eexists _, _, _. split_and!; [reflexivity..|]. left; reflexivity. }
  split_and!; [exact H|exact Hr|].
  exact (consult_no_parts_500 backend due_request partless_model _ _ H Hr).
Defined.


(** A legacy document whose download returns. *)
Lemma legacy_doc_empty_block_witness :
  Drive.mimeType old_doc = "application/msword"
  ∧ result_of (process_file backend "BEFORE" old_doc one_broken)
    = Returns ("BEFORE--- Content from file: old.doc ---" +:+ nl +:+ nl +:+ nl).
Proof.
  split; [reflexivity|].
  by rewrite (legacy_doc_empty_block backend "BEFORE" old_doc one_broken
                (String.list_byte_of_string "id-old") (served one_broken)
                eq_refl eq_refl).
Defined.

(** C6, as the claim states it, fails: the handler downloads a file of
    type [application/msword] like every file that is not a native
    document, and when that download fails the file gets the placeholder
    block, here in the prompt that goes to the model. *)
Lemma legacy_doc_download_fails :
  Drive.mimeType old_doc = "application/msword"
  ∧ result_of (process_file backend EmptyString old_doc broken_doc)
    = Returns ("--- Could not read content from file: old.doc ---"
                 +:+ nl +:+ nl)
  ∧ result_of (process_file backend EmptyString old_doc broken_doc)
    ≠ Returns (content_block "old.doc" EmptyString)
  ∧ GenerateContent
      (build_prompt "What is due?" (unreadable_block "old.doc"))
      (Returns (says "Friday"))
      ∈ trace_of (post_consult backend due_request broken_doc).
Proof.
  split_and!; [reflexivity|reflexivity|by vm_compute|].
  vm_compute. do 4 apply list_elem_of_further. apply list_elem_of_here.
Qed.

(** Two files that the storage holds out of the order of their names. *)
Lemma consult_context_in_listing_order_witness :
  GenerateContent
    (build_prompt "What is due?"
       (content_block "notes.txt" "id-notes"
          +:+ content_block "agenda.txt" "id-agenda"))
    (Returns (says "Friday"))
    ∈ trace_of (post_consult backend due_request unsorted_folder)
  ∧ (∀ p' o', DriveFilesList p' o'
                ∈ trace_of (post_consult backend due_request unsorted_folder) →
              Drive.orderBy p' = None)
  ∧ ∃ blocks : list string,
      length blocks = 2
      ∧ blocks !! 0
        = Some ("--- Content from file: notes.txt ---" +:+ nl +:+ "id-notes"
                  +:+ nl +:+ nl)
      ∧ blocks !! 1
        = Some ("--- Content from file: agenda.txt ---" +:+ nl +:+ "id-agenda"
                  +:+ nl +:+ nl)
      ∧ build_prompt "What is due?"
          (content_block "notes.txt" "id-notes"
             +:+ content_block "agenda.txt" "id-agenda")
        = build_prompt "What is due?" (join EmptyString blocks).
Proof.
  assert (GenerateContent
            (build_prompt "What is due?"
               (content_block "notes.txt" "id-notes"
                  +:+ content_block "agenda.txt" "id-agenda"))
            (Returns (says "Friday"))
            ∈ trace_of (post_consult backend due_request unsorted_folder))
    as Hm.
  { vm_compute. do 5 apply list_elem_of_further. apply list_elem_of_here. }
  destruct (consult_context_in_listing_order backend due_request
              unsorted_folder "f1"
              {| Drive.files := Some [notes_txt; agenda_txt] |}
              (served unsorted_folder) [notes_txt; agenda_txt] _ _
              eq_refl eq_refl eq_refl Hm)
    as (Horder & question & blocks & Hq & Hlen & Hblocks & Hprompt).
  split_and!; [exact Hm|exact Horder|].
  exists blocks. split_and!.
  - exact Hlen.
  - exact (Hblocks 0 notes_txt (Returns "id-notes") eq_refl eq_refl).
  - exact (Hblocks 1 agenda_txt (Returns "id-agenda") eq_refl eq_refl).
  - injection Hq as <-. exact Hprompt.
Defined.

(** C4, as the claim states it, fails: the storage below sorts whenever
    it is asked for [folder, name], and the browsing handler gets the two
    files by name; the consultation asks for no order, gets them as they
    are stored, and puts [notes.txt] before [agenda.txt] in the context. *)
Lemma consult_listing_not_sorted :
  honours_orderBy backend String.le unsorted_folder
  ∧ result_of (get_files_folder backend "f1" unsorted_folder)
    = Returns {| status := 200;
                 json := BodyFiles (Some [agenda_txt; notes_txt]) |}
  ∧ (∃ p o, DriveFilesList p o
              ∈ trace_of (post_consult backend due_request unsorted_folder)
            ∧ Drive.orderBy p ≠ Some "folder, name")
  ∧ GenerateContent
      (build_prompt "What is due?"
         (render [Content "notes.txt" "id-notes";
                  Content "agenda.txt" "id-agenda"]))
      (Returns (says "Friday"))
      ∈ trace_of (post_consult backend due_request unsorted_folder)
  ∧ ¬ StronglySorted (folder_then_name String.le) [notes_txt; agenda_txt].
Proof.
  split_and!.
  - apply fake_honours_orderBy.
  - reflexivity.
  - eexists _, _. split; [vm_compute; apply list_elem_of_here|done].
  - vm_compute. do 5 apply list_elem_of_further. apply list_elem_of_here.
  - intros Hs. apply StronglySorted_inv in Hs as [_ Hall].
    apply Forall_inv in Hall. by vm_compute in Hall.
Qed.

(** A folder and two files, stored in another order. *)
Lemma listings_folders_then_names_witness :
  honours_orderBy backend String.le mixed_folder
  ∧ result_of (get_files_root backend mixed_folder)
    = Returns {| status := 200;
                 json := BodyFiles
                   (Some [archive_folder; agenda_txt; notes_txt]) |}
  ∧ result_of (get_files_folder backend "f1" mixed_folder)
    = Returns {| status := 200;
                 json := BodyFiles
                   (Some [archive_folder; agenda_txt; notes_txt]) |}
  ∧ StronglySorted (folder_then_name String.le)
                   [archive_folder; agenda_txt; notes_txt].
Proof.
  pose proof (fake_honours_orderBy mixed_folder) as H.
  destruct (listings_folders_then_names backend String.le mixed_folder "f1" H)
    as [(o & w1 & t & Hlist & Htrace & Hone & Hroot)
        (o' & w1' & t' & Hlist' & Htrace' & Hone' & Hfolder)].
  injection Hlist as <- <-. injection Hlist' as <- <-.
  destruct (Hroot _ eq_refl) as [Hr Hs].
  destruct (Hfolder _ eq_refl) as [Hf _].
  split_and!; [exact H|exact Hr|exact Hf|].
  exact (Hs _ eq_refl).
Defined.

(** The folder of the environment, asked for by the three handlers. *)
Lemma queries_interpolate_folder_id_witness :
  GOOGLE_DRIVE_FOLDER_ID backend = Some "root-folder"
  ∧ root_request !! "folderId" = Some (Js.JStr "root-folder")
  ∧ validated root_request = true
  ∧ ∃ o t, trace_of (post_consult backend root_request one_broken)
           = DriveFilesList
               {| Drive.q := "'" +:+ "root-folder"
                    +:+ "' in parents and (mimeType='text/plain' or mimeType='application/vnd.google-apps.document' or mimeType='application/pdf' or mimeType='application/vnd.openxmlformats-officedocument.wordprocessingml.document' or mimeType='application/vnd.openxmlformats-officedocument.presentationml.presentation' or mimeType='application/msword') and trashed = false";
                  Drive.fields := "files(id, name, mimeType)";
                  Drive.orderBy := None |} o :: t.
Proof.
  split_and!; [reflexivity..|].
  exact (proj1 (proj2 (proj2 (queries_interpolate_folder_id backend
           "root-folder" root_request one_broken eq_refl eq_refl eq_refl)))).
Defined.

End FakeRuns.

(** * Further properties of the handlers *)

(** ** The browsing handlers *)

Section Browse.
Context {W : Type} (B : Backend W).
Implicit Types (w : W) (handler : M W response).

(** X1: when the listing of a browsing handler throws, the handler answers
    500 with the error [Failed to fetch files.]; the refused listing is its
    only call of a service (nothing is tried again), followed by one line
    on the error console. *)
Theorem browse_listing_failure_500 handler (folderId : string) w p e :
  browses B handler folderId →
  DriveFilesList p (Throws e) ∈ trace_of (handler w) →
  result_of (handler w)
  = Returns {| status := 500; json := BodyError "Failed to fetch files." |}
  ∧ filter (fun ev => is_service_call ev = true) (trace_of (handler w))
    = [DriveFilesList p (Throws e)]
  ∧ ∃ label, trace_of (handler w)
             = [DriveFilesList p (Throws e);
                ConsoleError label (Js.message e)].
Proof.
  intros [-> | ->];
    [rewrite get_files_root_run | rewrite get_files_folder_run]; cbn zeta;
    destruct (drive_files_list B _ w) as [[d|e'] w1]; cbn;
    rewrite ?elem_of_cons, ?elem_of_nil; intros; destruct_or?; simplify_eq;
    eauto.
Qed.

(** X2: when the listing returns, a browsing handler answers 200 with the
    array of the storage as it is: nothing is filtered by type, dropped or
    reordered, and a missing array stays missing.  The listing is the only
    event. *)
Theorem browse_returns_listing_untouched handler (folderId : string) w p d :
  browses B handler folderId →
  DriveFilesList p (Returns d) ∈ trace_of (handler w) →
  result_of (handler w)
  = Returns {| status := 200; json := BodyFiles (Drive.files d) |}
  ∧ trace_of (handler w) = [DriveFilesList p (Returns d)].
Proof.
  intros [-> | ->];
    [rewrite get_files_root_run | rewrite get_files_folder_run]; cbn zeta;
    destruct (drive_files_list B _ w) as [[d'|e'] w1]; cbn;
    rewrite ?elem_of_cons, ?elem_of_nil; intros; destruct_or?; by simplify_eq.
Qed.

End Browse.

(** ** The consultation: failures of the services, statuses, the answer *)

Section ConsultMore.
Context {W : Type} (B : Backend W).
Implicit Types (req_body : gmap string Js.value) (w : W).

(** X3: when the listing of a consultation throws, the request is
    answered 500 with the error [Failed to consult Gemini.]; no file is
    fetched and the model is not called: the refused listing and one line
    on the error console are all the events. *)
Theorem consult_listing_failure_500 req_body w p e :
  DriveFilesList p (Throws e) ∈ trace_of (post_consult B req_body w) →
  result_of (post_consult B req_body w)
  = Returns {| status := 500; json := BodyError "Failed to consult Gemini." |}
  ∧ trace_of (post_consult B req_body w)
    = [DriveFilesList p (Throws e);
       ConsoleError "Error with Gemini consultation:" (Js.message e)].
Proof.
  intros Hin.
  destruct (consult_listing_event B _ _ _ _ Hin)
    as (Hv & fid & w1 & Hfid & -> & Hlist).
  clear Hin.
  destruct (post_consult_path B req_body w); by same_call.
Qed.

(** X4: when the call of the model throws, the request is answered 500
    with the error [Failed to consult Gemini.], although the listing and
    the reads of the files went through; the error goes to the console
    and the model is not called again. *)
Theorem consult_model_failure_500 req_body w prompt e :
  GenerateContent prompt (Throws e) ∈ trace_of (post_consult B req_body w) →
  result_of (post_consult B req_body w)
  = Returns {| status := 500; json := BodyError "Failed to consult Gemini." |}
  ∧ ∃ events,
      trace_of (post_consult B req_body w)
      = events ++ [GenerateContent prompt (Throws e);
                   ConsoleError "Error with Gemini consultation:"
                                (Js.message e)]
      ∧ Forall (fun ev => is_model_call ev = false) events.
Proof.
  intros Hin.
  destruct (consult_model_event B _ _ _ _ Hin)
    as (fid & d & w1 & files & qn & w3
        & Hv & Hfid & Hlist & Hfiles & Hne & Hqn & -> & Hgen).
  clear Hin.
  destruct (post_consult_path B req_body w); same_call; try done;
    try (destruct_or?; congruence).
  split; [done|].
  eexists (_ :: _). split; [done|].
  constructor; [done|].
  eapply Forall_impl; [apply loop_trace_quiet|]. by intros ev [_ ?].
Qed.

Lemma truthy_false_iff (v : Js.prop) : Js.truthy v = false ↔ falsy v.
Proof.
  unfold falsy. split.
  - destruct v as [[|[]|lit|s|l|]|]; cbn; intros H; try done; auto 10.
    + apply negb_false_iff, orb_true_iff in H as [H|H];
        apply bool_decide_eq_true in H; subst; auto 10.
    + apply negb_false_iff, bool_decide_eq_true in H. subst. auto 10.
  - intros H. destruct_or?; by subst.
Qed.

(** X5: a consultation is answered 400 exactly when [folderId] or
    [question] is missing or falsy ([null], [false], a zero, not-a-number
    or the empty string); every other value, of whatever type, passes the
    validation. *)
Theorem consult_400_iff_falsy req_body w :
  (∃ b, result_of (post_consult B req_body w)
        = Returns {| status := 400; json := b |})
  ↔ falsy (req_body !! "folderId") ∨ falsy (req_body !! "question").
Proof.
  rewrite <-!truthy_false_iff, <-andb_false_iff.
  fold (validated req_body). split.
  - intros [b Hb]. destruct (validated req_body) eqn:Hv; [|done].
    destruct (post_consult_path B req_body w); [congruence|..];
      unfold result_of in Hb; cbn in Hb; by simplify_eq.
  - intros Hv. rewrite post_consult_rejected by done. by eexists.
Qed.

(** X6: a consultation always answers, and in one of three forms: 400 or
    500 with an error body, or 200 with an answer body; no exception
    leaves the handler and no other status is used. *)
Theorem consult_answer_forms req_body w :
  ∃ resp,
    result_of (post_consult B req_body w) = Returns resp
    ∧ ((status resp = 200 ∧ ∃ answer, json resp = BodyAnswer answer)
       ∨ (status resp = 400
          ∧ json resp = BodyError "folderId and question are required.")
       ∨ (status resp = 500
          ∧ json resp = BodyError "Failed to consult Gemini.")).
Proof.
  destruct (post_consult_path B req_body w); eexists; split;
    try reflexivity; cbn; eauto 10.
Qed.

(** X7: the answer of a consultation is the text of the first part of the
    first candidate; the other parts and the other candidates are not
    read, and when that part has no text the request is still answered
    200, with a body that has no answer. *)
Theorem consult_first_part_only
    req_body w prompt r c cs content part parts :
  GenerateContent prompt (Returns (Some r))
    ∈ trace_of (post_consult B req_body w) →
  Gemini.candidates r = Some (c :: cs) →
  Gemini.content_of c = Some content →
  Gemini.parts content = Some (part :: parts) →
  result_of (post_consult B req_body w)
  = Returns {| status := 200; json := BodyAnswer (Gemini.text part) |}.
Proof.
  intros Hin Hr Hc Hparts.
  assert (first_content (Some r) = Some content) as Hsome.
  { cbn. by rewrite Hr. }
  assert (first_part_text content = Returns (Gemini.text part)) as Hp.
  { unfold first_part_text. by rewrite Hparts. }
  destruct (consult_model_event B _ _ _ _ Hin)
    as (fid & d & w1 & files & qn & w3
        & Hv & Hfid & Hlist & Hfiles & Hne & Hqn & -> & Hgen).
  clear Hin.
  destruct (post_consult_path B req_body w); same_call;
    try done; destruct_or?; congruence.
Qed.

(** X17: a consultation is answered 200 in two cases and no other: the
    listing returned no file, or the model returned a first candidate
    whose content has at least one part.  A failure of the listing or of
    the model, and an answer without a usable candidate, give another
    status, whatever the files. *)
Theorem consult_200_iff req_body w :
  (∃ b, result_of (post_consult B req_body w)
        = Returns {| status := 200; json := b |})
  ↔ (∃ p d, DriveFilesList p (Returns d)
              ∈ trace_of (post_consult B req_body w)
            ∧ (Drive.files d = None ∨ Drive.files d = Some []))
    ∨ (∃ prompt r c part parts,
         GenerateContent prompt (Returns r)
           ∈ trace_of (post_consult B req_body w)
         ∧ first_content r = Some c
         ∧ Gemini.parts c = Some (part :: parts)).
Proof.
  split.
  - intros [b Hb].
    destruct (post_consult_path B req_body w) as
      [ | | | fid d w1 ? ? ? ? | | | |
        | fid d w1 files qn r w3 c answer ? ? ? ? ? ? ? ? Hp];
      unfold result_of in Hb; cbn in Hb; simplify_eq.
    + left. eexists _, d. split; [|done]. unfold trace_of; cbn. left.
    + right. unfold first_part_text in Hp.
      destruct (Gemini.parts c) as [[|part parts]|] eqn:Hparts; simplify_eq.
      eexists _, r, c, part, parts. split_and!; [|done..].
      unfold trace_of; cbn [snd]. rewrite elem_of_cons, elem_of_app.
      right; right. left.
  - intros [(p & d & Hin & Hd) | (prompt & r & c & part & parts & Hin & Hc & Hparts)].
    + destruct (consult_listing_event B _ _ _ _ Hin)
    as (Hv & fid & w1 & Hfid & -> & Hlist).
      clear Hin.
      destruct (post_consult_path B req_body w); same_call;
        try (destruct Hd; congruence). by eexists.
    + assert (first_part_text c = Returns (Gemini.text part)) as Hp.
      { unfold first_part_text. by rewrite Hparts. }
      destruct (consult_model_event B _ _ _ _ Hin)
        as (fid & d & w1 & files & qn & w3
        & Hv & Hfid & Hlist & Hfiles & Hne & Hqn & -> & Hgen).
      clear Hin.
      destruct (post_consult_path B req_body w); same_call;
        try done; try (destruct_or?; congruence). by eexists.
Qed.

End ConsultMore.

(** ** The loop: fetches, blocks, composition *)

Section LoopMore.
Context {W : Type} (B : Backend W).
Implicit Types (req_body : gmap string Js.value) (w : W).

Lemma read_content_fetch (file : Drive.file) w :
  omap fetch_request (trace_of (read_content B file w))
  = [expected_fetch file].
Proof.
  unfold expected_fetch, read_content, await_export, await_get, console_log,
    Eff.call, Eff.bind, Eff.lift, Eff.emit, Eff.ret.
  repeat case_bool_decide;
    repeat match goal with
      | |- context [drive_files_export B ?a ?b ?w] =>
          destruct (drive_files_export B a b w) as [[?|?] ?]
      | |- context [drive_files_get B ?a ?w] =>
          destruct (drive_files_get B a w) as [[?|?] ?]
      | |- context [pptx2json_parse B ?x] =>
          destruct (pptx2json_parse B x)
      | |- context [mammoth_extractRawText B ?x] =>
          destruct (mammoth_extractRawText B x)
      | |- context [pdf B ?x] => destruct (pdf B x)
      | |- context [pptx_text ?x] => destruct (pptx_text x)
      end;
    done.
Qed.

(** X8: the loop fetches every listed file exactly once, in the order of
    the listing, whatever happens to the files before it: a native
    document by an export as [text/plain], a file of any other type by a
    download. *)
Theorem loop_fetches_each_file_once (files : list Drive.file) w :
  omap fetch_request (loop_trace B files w) = expected_fetch <$> files.
Proof.
  revert w. induction files as [|file rest IH]; intros w; [done|].
  rewrite loop_trace_cons, omap_app, IH. unfold process_trace.
  cbn [omap list_omap fetch_request]. rewrite omap_app, read_content_fetch.
  by destruct (result_of _).
Qed.

Lemma count_events_app (p : event → bool) (t1 t2 : list event) :
  count_events p (t1 ++ t2) = count_events p t1 + count_events p t2.
Proof. induction t1 as [|ev t1 IH]; [done|]. cbn. rewrite IH. lia. Qed.

Lemma process_trace_service_calls (file : Drive.file) w :
  count_events is_service_call (process_trace B file w) = 1.
Proof.
  unfold process_trace. cbn [count_events is_service_call].
  rewrite count_events_app.
  assert (count_events is_service_call (trace_of (read_content B file w)) = 1)
    as ->.
  { unfold read_content, await_export, await_get, console_log,
      Eff.call, Eff.bind, Eff.lift, Eff.emit, Eff.ret.
    repeat case_bool_decide;
      repeat match goal with
        | |- context [drive_files_export B ?a ?b ?w] =>
            destruct (drive_files_export B a b w) as [[?|?] ?]
        | |- context [drive_files_get B ?a ?w] =>
            destruct (drive_files_get B a w) as [[?|?] ?]
        | |- context [pptx2json_parse B ?x] =>
            destruct (pptx2json_parse B x)
        | |- context [mammoth_extractRawText B ?x] =>
            destruct (mammoth_extractRawText B x)
        | |- context [pdf B ?x] => destruct (pdf B x)
        | |- context [pptx_text ?x] => destruct (pptx_text x)
        end;
      done. }
  by destruct (result_of _).
Qed.

Lemma loop_trace_service_calls (files : list Drive.file) w :
  count_events is_service_call (loop_trace B files w) = length files.
Proof.
  revert w. induction files as [|file rest IH]; intros w; [done|].
  by rewrite loop_trace_cons, count_events_app, IH,
    process_trace_service_calls.
Qed.

Lemma loop_trace_model_calls (files : list Drive.file) w :
  count_events is_model_call (loop_trace B files w) = 0.
Proof.
  pose proof (loop_trace_quiet B files w) as Hq.
  induction Hq as [|ev t [_ Hev] _ IH]; [done|]. cbn. by rewrite Hev, IH.
Qed.

(** X9: a consultation whose listing returns [N] files, [N] at least one,
    makes the listing and one fetch per file, whether the reads succeed
    or fail, and then at most one call of the model: exactly one, [N + 2]
    calls of the services in all, when the question has a text; none,
    [N + 1] calls in all, when the question is an object that has a member
    [toString] of its own, on which the template of the prompt throws
    after the files were fetched. *)
Theorem consult_service_calls req_body w p d (files : list Drive.file) :
  DriveFilesList p (Returns d) ∈ trace_of (post_consult B req_body w) →
  Drive.files d = Some files →
  files ≠ [] →
  count_events is_service_call (trace_of (post_consult B req_body w))
  = length files + 1
      + count_events is_model_call (trace_of (post_consult B req_body w))
  ∧ count_events is_model_call (trace_of (post_consult B req_body w))
    = match Js.interpolate (req_body !! "question") with
      | Some _ => 1
      | None => 0
      end.
Proof.
  intros Hin Hfiles Hne.
  destruct (consult_listing_event B _ _ _ _ Hin)
    as (Hv & fid & w1 & Hfid & -> & Hlist).
  clear Hin.
  destruct (post_consult_path B req_body w) as
      [ | | | | ? ? ? ? ? ? ? ? ? Hq | ? ? ? ? ? ? ? ? ? ? ? ? Hq ?
        | ? ? ? ? ? ? ? ? ? ? ? ? Hq ? ? | ? ? ? ? ? ? ? ? ? ? ? ? ? ? Hq ? ? ?
        | ? ? ? ? ? ? ? ? ? ? ? ? ? ? Hq ? ? ?];
    same_call; try done; try (destruct_or?; congruence);
    rewrite Hq;
    unfold trace_of; cbn [snd count_events is_service_call is_model_call];
    rewrite !count_events_app, loop_trace_service_calls,
      loop_trace_model_calls; cbn; lia.
Qed.

(** X10: the loop never throws and returns the context followed by
    exactly one block per listed file, in the order of the listing and
    however many reads fail: the placeholder of the file when its read
    threw, the header of the file and the text of its read otherwise.  As
    many blocks start as a placeholder as reads threw, and the others
    start as content. *)
Theorem blocks_match_outcomes (files : list Drive.file) (context : string) w :
  ∃ blocks : list string,
    result_of (for_of_files B files context w)
    = Returns (context +:+ join EmptyString blocks)
    ∧ length blocks = length files
    ∧ (∀ j f o, files !! j = Some f → outcomes B files w !! j = Some o →
         blocks !! j
         = Some (match o with
                 | Returns t =>
                     "--- Content from file: " +:+ Drive.name f
                       +:+ " ---" +:+ nl +:+ t +:+ nl +:+ nl
                 | Throws _ =>
                     "--- Could not read content from file: "
                       +:+ Drive.name f +:+ " ---" +:+ nl +:+ nl
                 end))
    ∧ count_headed "--- Could not read content from file: " blocks
      = count_thrown (outcomes B files w)
    ∧ count_headed "--- Content from file: " blocks
        + count_thrown (outcomes B files w)
      = length files.
Proof.
  exists (render_block <$> context_blocks B files w).
  split_and!.
  - apply for_of_files_texts.
  - apply block_texts_length.
  - intros j f o Hf Ho. rewrite (block_texts_lookup B files w j f o) by done.
    by destruct o.
  - apply count_headed_thrown, outcomes_length.
  - apply count_headed_thrown, outcomes_length.
Qed.

Lemma world_after_cons (file : Drive.file) (rest : list Drive.file) w :
  world_after B (file :: rest) w
  = world_after B rest (world_of (read_content B file w)).
Proof.
  unfold world_after at 1. cbn [for_of_files]. unfold Eff.bind.
  by rewrite process_file_run, for_of_files_run.
Qed.

Lemma outcomes_app (files1 files2 : list Drive.file) w :
  outcomes B (files1 ++ files2) w
  = outcomes B files1 w ++ outcomes B files2 (world_after B files1 w).
Proof.
  revert w. induction files1 as [|file rest IH]; intros w; [done|].
  cbn [app outcomes]. by rewrite IH, world_after_cons.
Qed.

Lemma context_blocks_app (files1 files2 : list Drive.file) w :
  context_blocks B (files1 ++ files2) w
  = context_blocks B files1 w
      ++ context_blocks B files2 (world_after B files1 w).
Proof.
  unfold context_blocks. rewrite outcomes_app.
  apply zip_with_app. by rewrite outcomes_length.
Qed.

(** X11: the loop over a listing that is the concatenation of two
    listings is the loop over the first followed by the loop over the
    second, which starts from the context and the state that the first
    leaves; the blocks of the whole are the blocks of the parts, in
    order. *)
Theorem loop_composes (files1 files2 : list Drive.file) (context : string) w :
  for_of_files B (files1 ++ files2) context w
  = (let* context' := for_of_files B files1 context in
     for_of_files B files2 context') w
  ∧ context_blocks B (files1 ++ files2) w
    = context_blocks B files1 w
        ++ context_blocks B files2 (world_after B files1 w).
Proof.
  split; [|apply context_blocks_app].
  revert context w. induction files1 as [|file rest IH]; intros context w.
  - cbn [app for_of_files]. unfold Eff.bind, Eff.ret.
    by destruct (for_of_files B files2 context w) as [[o w2] t2].
  - cbn [app for_of_files]. unfold Eff.bind at 1 2 3.
    destruct (process_file B context file w) as [[[c|e] w1] t1]; [|done].
    rewrite IH. unfold Eff.bind.
    destruct (for_of_files B rest c w1) as [[[c'|e'] w2] t2]; [|done].
    destruct (for_of_files B files2 c' w2) as [[o w3] t3].
    by rewrite app_assoc.
Qed.

(** X12: a file that is not a native document is downloaded and handed to
    the parser of its type, and to no other: the Word parser for a
    [.docx], the PDF parser for a PDF, the presentation parser for a
    [.pptx], the UTF-8 decoding for plain text.  A legacy [.doc] and a
    file of any other type give an empty text without any parser. *)
Theorem read_content_routes (file : Drive.file) w (bytes : list Byte.byte) w1 :
  Drive.mimeType file ≠ "application/vnd.google-apps.document" →
  drive_files_get B (Drive.id file) w = (Returns bytes, w1) →
  let mimeType := Drive.mimeType file in
  let fileContent := result_of (read_content B file w) in
  world_of (read_content B file w) = w1
  ∧ (mimeType
       = "application/vnd.openxmlformats-officedocument.wordprocessingml.document" →
     fileContent = mammoth_extractRawText B bytes)
  ∧ (mimeType = "application/pdf" → fileContent = pdf B bytes)
  ∧ (mimeType
       = "application/vnd.openxmlformats-officedocument.presentationml.presentation" →
     fileContent = match pptx2json_parse B bytes with
                   | Returns pptxJson => pptx_text pptxJson
                   | Throws e => Throws e
                   end)
  ∧ (mimeType = "text/plain" →
     fileContent = Returns (buffer_toString_utf8 B bytes))
  ∧ (mimeType = "application/msword" → fileContent = Returns EmptyString)
  ∧ (mimeType ∉ [mime_docx; mime_pdf; mime_pptx; mime_text; mime_doc] →
     fileContent = Returns EmptyString).
Proof.
  intros Hnative Hget mimeType fileContent.
  unfold fileContent, mimeType, read_content.
  rewrite bool_decide_eq_false_2 by done.
  unfold await_get, console_log, Eff.call, Eff.bind, Eff.lift, Eff.emit,
    Eff.ret.
  rewrite Hget.
  split_and!.
  - repeat case_bool_decide;
      repeat match goal with
        | |- context [pptx2json_parse B ?x] => destruct (pptx2json_parse B x)
        | |- context [mammoth_extractRawText B ?x] =>
            destruct (mammoth_extractRawText B x)
        | |- context [pdf B ?x] => destruct (pdf B x)
        | |- context [pptx_text ?x] => destruct (pptx_text x)
        end; done.
  - intros ->. cbn. by destruct (mammoth_extractRawText B bytes).
  - intros ->. cbn. by destruct (pdf B bytes).
  - intros ->. cbn. destruct (pptx2json_parse B bytes) as [j|e]; [|done].
    by destruct (pptx_text j).
  - by intros ->.
  - by intros ->.
  - intros Hnone. rewrite !not_elem_of_cons in Hnone.
    destruct Hnone as (? & ? & ? & ? & ? & _).
    by rewrite !bool_decide_eq_false_2 by done.
Qed.

(** X13: a native document is never downloaded and no parser runs on it:
    the turn of the loop asks the storage for an export as [text/plain]
    and puts the exported text, as it is, in the block of the file; when
    the export throws, the file gets the placeholder block. *)
Theorem native_document_exported (context : string) (file : Drive.file) w o w1 :
  Drive.mimeType file = "application/vnd.google-apps.document" →
  drive_files_export B (Drive.id file) "text/plain" w = (o, w1) →
  result_of (process_file B context file w)
  = Returns (context +:+ match o with
                         | Returns data => content_block (Drive.name file) data
                         | Throws _ => unreadable_block (Drive.name file)
                         end)
  ∧ world_of (process_file B context file w) = w1
  ∧ omap fetch_request (trace_of (process_file B context file w))
    = [(Drive.id file, Some "text/plain")]
  ∧ count_events is_service_call (trace_of (process_file B context file w))
    = 1.
Proof.
  intros Hmime Hexport. rewrite process_file_run.
  assert (read_content B file w
          = (o, w1, [DriveFilesExport (Drive.id file) "text/plain" o]))
    as Hread.
  { unfold read_content. rewrite bool_decide_eq_true_2 by done.
    unfold await_export, Eff.call. by rewrite Hexport. }
  unfold process_trace. rewrite Hread. cbn. by destruct o.
Qed.

End LoopMore.

(** ** Presentations and the text of the blocks *)

Lemma slide_raws_returns (l : list Pptx.slide) :
  Forall has_text l →
  slide_raws l
  = Returns ((fun slide => Pptx.text slide ≫= Pptx.raw) <$> l).
Proof.
  induction 1 as [|slide l [t Ht] _ IH]; [done|].
  cbn. by rewrite Ht, IH.
Qed.

Lemma slide_raws_throws (l : list Pptx.slide) :
  ¬ Forall has_text l → ∃ e, slide_raws l = Throws e.
Proof.
  induction l as [|slide l IH]; intros Hnot.
  - by destruct Hnot.
  - cbn. destruct (Pptx.text slide) as [t|] eqn:Ht; [|eauto].
    destruct IH as [e ->]; [|eauto].
    intros Hall. apply Hnot. constructor; [by eexists|done].
Qed.

(** X14: the text of a presentation is read when, and only when, the
    parsed presentation has a [slides] array and every slide has a [text];
    it is then the [raw] texts of the slides, in the order of the slides,
    joined by line feeds, a slide without [raw] giving an empty line.  In
    every other case the read throws. *)
Theorem pptx_text_returns_iff (pptxJson : Pptx.json) :
  ((∃ t, pptx_text pptxJson = Returns t)
   ↔ ∃ l, Pptx.slides pptxJson = Some l ∧ Forall has_text l)
  ∧ (∀ l, Pptx.slides pptxJson = Some l → Forall has_text l →
       pptx_text pptxJson = Returns (join nl (raw_or_empty <$> l))).
Proof.
  assert (∀ l, Forall has_text l →
               map (from_option (fun s => s) EmptyString)
                   ((fun slide => Pptx.text slide ≫= Pptx.raw) <$> l)
               = raw_or_empty <$> l) as Hraw.
  { induction 1 as [|slide l [t Ht] _ IH]; [done|].
    cbn. rewrite <-IH. unfold raw_or_empty. by rewrite Ht. }
  split.
  - unfold pptx_text. destruct (Pptx.slides pptxJson) as [l|]; split.
    + intros [t Ht]. exists l. split; [done|].
      destruct (decide (Forall has_text l)) as [|Hnot]; [done|].
      destruct (slide_raws_throws l Hnot) as [e He]. by rewrite He in Ht.
    + intros (l' & ? & Hall). simplify_eq.
      rewrite slide_raws_returns by done. by eexists.
    + by intros [t ?].
    + by intros (l & ? & _).
  - intros l Hl Hall. unfold pptx_text.
    by rewrite Hl, slide_raws_returns, Hraw.
Qed.

(** X15: the text of a file goes into the context as it is, with no
    escaping of the header lines: one file whose text holds a blank line
    and the header of a file [b] gives the very context of two files. *)
Theorem file_text_is_not_escaped (a b x y : string) :
  content_block a (x +:+ nl +:+ nl +:+ "--- Content from file: " +:+ b
                     +:+ " ---" +:+ nl +:+ y)
  = content_block a x +:+ content_block b y
  ∧ render [Content a (x +:+ nl +:+ nl +:+ "--- Content from file: " +:+ b
                         +:+ " ---" +:+ nl +:+ y)]
    = render [Content a x; Content b y].
Proof.
  assert (content_block a (x +:+ nl +:+ nl +:+ "--- Content from file: " +:+ b
                             +:+ " ---" +:+ nl +:+ y)
          = content_block a x +:+ content_block b y) as H.
  { unfold content_block. by rewrite !append_assoc. }
  split; [done|]. cbn [render render_block]. by rewrite H, !append_nil_r.
Qed.

(** ** The folder that a query names *)

Lemma read_literal_shape (n : nat) (s v k : string) :
  String.length s ≤ n →
  read_literal s = Some (v, k) →
  ∃ pre, s = pre +:+ k
         ∧ String.length v + 1 ≤ String.length pre
         ∧ (String.length pre = String.length v + 1 →
            Forall plain_char (String.list_ascii_of_string v)).
Proof.
  revert s v k. induction n as [|n IH]; intros [|c rest] v k Hn Hread;
    try done; cbn [String.length] in Hn; [lia|].
  cbn [read_literal] in Hread.
  case_bool_decide as Hq.
  { simplify_eq. exists (String "039"%char EmptyString).
    split_and!; [done|cbn; lia|]. intros _. constructor. }
  case_bool_decide as Hb.
  - destruct rest as [|c' rest']; [done|].
    destruct (read_literal rest') as [[v' k']|] eqn:Hrest; simplify_eq.
    cbn [String.length] in Hn.
    destruct (IH rest' v' k) as (pre & -> & Hlen & _); [lia|done|].
    exists (String "092"%char (String c' pre)).
    split_and!; [done|cbn [String.length]; lia|]. cbn [String.length]. lia.
  - destruct (read_literal rest) as [[v' k']|] eqn:Hrest; simplify_eq.
    destruct (IH rest v' k) as (pre & -> & Hlen & Hplain); [lia|done|].
    exists (String c pre).
    split_and!; [done|cbn [String.length]; lia|].
    cbn [String.length]. intros Heq. constructor; [done|].
    apply Hplain. lia.
Qed.

Lemma append_split_later (u pre tail k : string) :
  u +:+ tail = pre +:+ k →
  String.length u < String.length pre →
  ∃ c mid, tail = String c mid +:+ k.
Proof.
  revert pre. induction u as [|c u IH]; intros [|c' pre] Heq Hlen;
    cbn [String.length] in Hlen; try lia.
  - change (EmptyString +:+ tail) with tail in Heq. eauto.
  - change (String c (u +:+ tail) = String c' (pre +:+ k)) in Heq.
    simplify_eq. apply (IH pre); [done|lia].
Qed.

Lemma append_length (s1 s2 : string) :
  String.length (s1 +:+ s2) = String.length s1 + String.length s2.
Proof.
  induction s1 as [|c s1 IH]; [done|].
  change (String c s1 +:+ s2) with (String c (s1 +:+ s2)).
  cbn [String.length]. by rewrite IH.
Qed.

Lemma later_suffix (tail k : string) (c : ascii) (mid : string) :
  tail = String c mid +:+ k → k ∈ later_suffixes tail.
Proof.
  revert tail c. induction mid as [|c' mid IH]; intros tail c ->.
  - left.
  - change (String c (String c' mid) +:+ k)
      with (String c (String c' mid +:+ k)).
    cbn [later_suffixes]. right. by eapply IH.
Qed.

Lemma no_later_parent (tail : string) :
  forallb (fun k => negb (String.prefix " in parents" k))
          (later_suffixes tail) = true →
  ∀ c mid k, tail = String c mid +:+ k →
             String.prefix " in parents" k = false.
Proof.
  intros Hall c mid k Htail.
  apply later_suffix in Htail. apply list_elem_of_In in Htail.
  rewrite forallb_forall in Hall. by apply negb_true_iff, Hall.
Qed.

Lemma named_parent_only_plain (folderId tail : string) :
  forallb (fun k => negb (String.prefix " in parents" k))
          (later_suffixes tail) = true →
  named_parent (String "039"%char (folderId +:+ String "039"%char tail))
  = Some folderId →
  Forall plain_char (String.list_ascii_of_string folderId).
Proof.
  intros Htail. unfold named_parent.
  rewrite bool_decide_eq_true_2 by done.
  destruct (read_literal _) as [[v k]|] eqn:Hread; [|done].
  destruct (String.prefix " in parents" k) eqn:Hprefix; [|done].
  intros ?; simplify_eq.
  destruct (read_literal_shape _ _ _ _ (reflexivity _) Hread)
    as (pre & Heq & Hlen & Hplain).
  destruct (decide (String.length pre = String.length folderId + 1))
    as [|Hlonger]; [by apply Hplain|].
  exfalso.
  assert (folderId +:+ String "039"%char tail
          = (folderId +:+ String "039"%char EmptyString) +:+ tail) as Hs
    by (by rewrite append_assoc).
  rewrite Hs in Heq.
  destruct (append_split_later _ _ _ _ Heq) as (c & mid & Hmid).
  { rewrite append_length. cbn [String.length]. lia. }
  by rewrite (no_later_parent tail Htail c mid k Hmid) in Hprefix.
Qed.

(** X16: the query of a handler names the folder id that it was given
    exactly when the id holds neither a quote nor a backslash; for every
    other id, the value that the storage reads between the quotes is not
    the id, or the query is not of the form ['...' in parents]. *)
Theorem query_names_folder_iff_plain (folderId : string) :
  (named_parent (browse_query folderId) = Some folderId
   ↔ Forall plain_char (String.list_ascii_of_string folderId))
  ∧ (named_parent (consult_query folderId) = Some folderId
     ↔ Forall plain_char (String.list_ascii_of_string folderId)).
Proof.
  split; (split; [|by intros [? ?]%named_parent_plain]).
  - apply (named_parent_only_plain _ " in parents and trashed = false").
    by vm_compute.
  - apply (named_parent_only_plain _
             (" in parents and (" +:+ join " or " supportedMimeTypes
                +:+ ") and trashed = false")).
    by vm_compute.
Qed.

(** ** Runs on the storage in memory *)

Module MoreRuns.
Import Fake.

(** The listing of a subfolder, refused by the storage. *)
Lemma browse_listing_failure_500_witness :
  DriveFilesList (browse_list_params "f1") (Throws Outage.refused)
    ∈ trace_of (get_files_folder Outage.backend "f1" one_broken)
  ∧ result_of (get_files_folder Outage.backend "f1" one_broken)
    = Returns {| status := 500; json := BodyError "Failed to fetch files." |}.
Proof.
  assert (DriveFilesList (browse_list_params "f1") (Throws Outage.refused)
            ∈ trace_of (get_files_folder Outage.backend "f1" one_broken))
    as H by (vm_compute; apply list_elem_of_here).
  split; [exact H|].
  exact (proj1 (browse_listing_failure_500 Outage.backend
                  (get_files_folder Outage.backend "f1") "f1" one_broken
                  _ _ (or_intror eq_refl) H)).
Defined.

(** The listing of the root folder, which holds a folder and two files. *)
Lemma browse_returns_listing_untouched_witness :
  DriveFilesList (browse_list_params "root-folder")
    (Returns {| Drive.files := Some [archive_folder; agenda_txt; notes_txt] |})
    ∈ trace_of (get_files_root backend mixed_folder)
  ∧ result_of (get_files_root backend mixed_folder)
    = Returns {| status := 200;
                 json := BodyFiles
                   (Some [archive_folder; agenda_txt; notes_txt]) |}.
Proof.
  assert (DriveFilesList (browse_list_params "root-folder")
            (Returns {| Drive.files :=
                          Some [archive_folder; agenda_txt; notes_txt] |})
            ∈ trace_of (get_files_root backend mixed_folder))
    as H by (vm_compute; apply list_elem_of_here).
  split; [exact H|].
  exact (proj1 (browse_returns_listing_untouched backend
                  (get_files_root backend) "f1" mixed_folder
                  _ _ (or_introl eq_refl) H)).
Defined.

(** A consultation whose listing is refused. *)
Lemma consult_listing_failure_500_witness :
  DriveFilesList (consult_list_params "f1") (Throws Outage.refused)
    ∈ trace_of (post_consult Outage.backend due_request one_broken)
  ∧ result_of (post_consult Outage.backend due_request one_broken)
    = Returns {| status := 500; json := BodyError "Failed to consult Gemini." |}.
Proof.
  assert (DriveFilesList (consult_list_params "f1") (Throws Outage.refused)
            ∈ trace_of (post_consult Outage.backend due_request one_broken))
    as H by (vm_compute; apply list_elem_of_here).
  split; [exact H|].
  exact (proj1 (consult_listing_failure_500 Outage.backend due_request
                  one_broken _ _ H)).
Defined.

(** Two readable files and a model that rejects the call. *)
Lemma consult_model_failure_500_witness :
  GenerateContent
    (build_prompt "What is due?"
       (render [Content "notes.txt" "id-notes";
                Content "scan.pdf" "text of a pdf"]))
    (Throws (Js.Error "Quota exceeded."))
    ∈ trace_of (post_consult backend due_request Outage.model_down)
  ∧ result_of (post_consult backend due_request Outage.model_down)
    = Returns {| status := 500; json := BodyError "Failed to consult Gemini." |}.
Proof.
  assert (GenerateContent
            (build_prompt "What is due?"
               (render [Content "notes.txt" "id-notes";
                        Content "scan.pdf" "text of a pdf"]))
            (Throws (Js.Error "Quota exceeded."))
            ∈ trace_of (post_consult backend due_request Outage.model_down))
    as H.
  { vm_compute. do 5 apply list_elem_of_further. apply list_elem_of_here. }
  split; [exact H|].
  exact (proj1 (consult_model_failure_500 backend due_request
                  Outage.model_down _ _ H)).
Defined.

(** An answer of two candidates, the first of two parts: the answer is
    the first part of the first. *)
Lemma consult_first_part_only_witness :
  GenerateContent
    (build_prompt "What is due?" (content_block "notes.txt" "id-notes"))
    (Returns (Some Outage.two_candidates))
    ∈ trace_of (post_consult backend due_request Outage.talkative)
  ∧ result_of (post_consult backend due_request Outage.talkative)
    = Returns {| status := 200; json := BodyAnswer (Some "Friday") |}.
Proof.
  assert (GenerateContent
            (build_prompt "What is due?" (content_block "notes.txt" "id-notes"))
            (Returns (Some Outage.two_candidates))
            ∈ trace_of (post_consult backend due_request Outage.talkative))
    as H.
  { vm_compute. do 3 apply list_elem_of_further. apply list_elem_of_here. }
  split; [exact H|].
  exact (consult_first_part_only backend due_request Outage.talkative
           _ Outage.two_candidates _ _ _ _ _ H eq_refl eq_refl eq_refl).
Defined.

(** Three files, one of which cannot be fetched: five calls when the
    question is a text, four and none of the model when it is an object
    with a member [toString]. *)
Lemma consult_service_calls_witness :
  DriveFilesList (consult_list_params "f1")
                 (Returns {| Drive.files := Some three_files |})
    ∈ trace_of (post_consult backend due_request one_broken)
  ∧ count_events is_service_call
                 (trace_of (post_consult backend due_request one_broken))
    = 5
  ∧ count_events is_model_call
                 (trace_of (post_consult backend due_request one_broken))
    = 1
  ∧ count_events is_service_call
                 (trace_of (post_consult backend Outage.opaque_question
                                         one_broken))
    = 4
  ∧ count_events is_model_call
                 (trace_of (post_consult backend Outage.opaque_question
                                         one_broken))
    = 0
  ∧ result_of (post_consult backend Outage.opaque_question one_broken)
    = Returns {| status := 500; json := BodyError "Failed to consult Gemini." |}.
Proof.
  assert (DriveFilesList (consult_list_params "f1")
                         (Returns {| Drive.files := Some three_files |})
            ∈ trace_of (post_consult backend due_request one_broken))
    as H by (vm_compute; apply list_elem_of_here).
  assert (DriveFilesList (consult_list_params "f1")
                         (Returns {| Drive.files := Some three_files |})
            ∈ trace_of (post_consult backend Outage.opaque_question
                                     one_broken))
    as H' by (vm_compute; apply list_elem_of_here).
  assert (three_files ≠ []) as Hne by discriminate.
  destruct (consult_service_calls backend due_request one_broken _ _
              three_files H eq_refl Hne) as [Hcalls Hmodel].
  destruct (consult_service_calls backend Outage.opaque_question one_broken
              _ _ three_files H' eq_refl Hne) as [Hcalls' Hmodel'].
  split_and!; [exact H| | exact Hmodel | | exact Hmodel' | reflexivity].
  - rewrite Hcalls, Hmodel. reflexivity.
  - rewrite Hcalls', Hmodel'. reflexivity.
Defined.

(** The download of a PDF goes to the PDF parser. *)
Lemma read_content_routes_witness :
  Drive.mimeType scan_pdf ≠ "application/vnd.google-apps.document"
  ∧ result_of (read_content backend scan_pdf Outage.office)
    = Returns "text of a pdf".
Proof.
  assert (Drive.mimeType scan_pdf ≠ "application/vnd.google-apps.document")
    as H by discriminate.
  split; [exact H|].
  destruct (read_content_routes backend scan_pdf Outage.office
              (String.list_byte_of_string "id-scan") (served Outage.office)
              H eq_refl)
    as (_ & _ & Hpdf & _).
  exact (Hpdf eq_refl).
Defined.

(** A native document, exported. *)
Lemma native_document_exported_witness :
  Drive.mimeType Outage.minutes_gdoc = "application/vnd.google-apps.document"
  ∧ result_of (process_file backend EmptyString Outage.minutes_gdoc
                            Outage.office)
    = Returns (content_block "minutes" "text of id-minutes").
Proof.
  split; [reflexivity|].
  exact (proj1 (native_document_exported backend EmptyString
                  Outage.minutes_gdoc Outage.office
                  (Returns "text of id-minutes") (served Outage.office)
                  eq_refl eq_refl)).
Defined.

End MoreRuns.
